(** * Remit_agent: the question-to-SQL pipeline and its invocation recorder

    A shallow embedding of
      - [src/Remit_agent/tools/tool_monitoring.py]  (module [tool_monitoring]),
      - [src/Remit_agent/database.py]               (module [database]),
      - [src/Remit_agent/tools/tools.py]            (module [tools]),
      - [src/Remit_agent/core/sql_agent.py]         (module [sql_agent]),
    followed by the properties of the pipeline.

    Python objects are values of [pyval]; dictionaries are finite maps
    ([gmap string pyval]).  The language model, the JSON decoder, the database
    session and the wall clock are external: they are the fields of a [World],
    and the general statements below hold in every world.  Code runs in the
    monad [M]: it reads the world, threads the mutable state [Sys] (the global
    [tool_monitor] and the record of external calls) and either returns a
    value or raises a Python exception.  Calls to the logger have no effect on
    any of this and are left out. *)

From Stdlib Require Import Ascii String Floats.PrimFloat.
From stdpp Require Import gmap strings list fin_maps pretty.

(* ===================================================================== *)
(** ** Python values *)
(* ===================================================================== *)

(** [VOpaque] stands for any object that is not JSON-shaped (a [Decimal] or a
    [datetime] in a database cell); it is carried by its [repr]. *)
#[warnings="-register-all"]
Inductive pyval : Type :=
| VNone
| VBool (b : bool)
| VInt (z : Z)
| VFloat (f : float)
| VStr (s : string)
| VList (l : list pyval)
| VDict (d : gmap string pyval)
| VOpaque (repr : string).

(** [bool(v)].  Opaque objects appear in database cells only, whose truth
    value the code never takes; they follow Python's default for objects. *)
Definition truthy (v : pyval) : bool :=
  match v with
  | VNone => false
  | VBool b => b
  | VInt z => negb (Z.eqb z 0)
  | VFloat f => negb (PrimFloat.eqb f 0%float)
  | VStr s => negb (String.eqb s "")
  | VList l => match l with [] => false | _ :: _ => true end
  | VDict d => negb (bool_decide (d = ∅))
  | VOpaque _ => true
  end.

(** [d.get(k, default)] on a dictionary. *)
Definition dict_get (d : gmap string pyval) (k : string) (default : pyval) : pyval :=
  match d !! k with
  | Some v => v
  | None => default
  end.

(** [d.update(other)], as a value: the entries of [other] override. *)
Definition dict_update (d other : gmap string pyval) : gmap string pyval :=
  other ∪ d.

(** [dict(pairs)]: the pairs are inserted from left to right. *)
Definition py_dict (pairs : list (string * pyval)) : gmap string pyval :=
  foldl (λ m kv, <[kv.1 := kv.2]> m) ∅ pairs.

(* ===================================================================== *)
(** ** Python strings

    A string is a sequence of code points below 256 (Latin-1), which is
    enough for [str.lower], [str.strip] and [str.startswith] to be exact. *)
(* ===================================================================== *)

Definition lower_char (c : ascii) : ascii :=
  let n := nat_of_ascii c in
  if ((65 <=? n) && (n <=? 90)) || ((192 <=? n) && (n <=? 214))
     || ((216 <=? n) && (n <=? 222))
  then ascii_of_nat (n + 32) else c.

Fixpoint lower (s : string) : string :=
  match s with
  | EmptyString => EmptyString
  | String c s' => String (lower_char c) (lower s')
  end.

(** [str.isspace] on one code point: TAB..CR, FS..US, space, NEL, NBSP. *)
Definition isspace (c : ascii) : bool :=
  let n := nat_of_ascii c in
  ((9 <=? n) && (n <=? 13)) || ((28 <=? n) && (n <=? 32))
  || (n =? 133) || (n =? 160).

Fixpoint lstrip (s : string) : string :=
  match s with
  | EmptyString => EmptyString
  | String c s' => if isspace c then lstrip s' else s
  end.

Fixpoint rstrip (s : string) : string :=
  match s with
  | EmptyString => EmptyString
  | String c s' =>
      match rstrip s' with
      | EmptyString => if isspace c then EmptyString else String c EmptyString
      | r => String c r
      end
  end.

Definition strip (s : string) : string := rstrip (lstrip s).

Fixpoint startswith (s p : string) {struct p} : bool :=
  match p, s with
  | EmptyString, _ => true
  | String a p', String b s' => if Ascii.eqb a b then startswith s' p' else false
  | String _ _, EmptyString => false
  end.

(** [needle in hay] for strings. *)
Fixpoint contains (hay needle : string) : bool :=
  startswith hay needle
  || match hay with
     | EmptyString => false
     | String _ hay' => contains hay' needle
     end.

(** ['\n'.join(parts)]. *)
Fixpoint join (sep : string) (parts : list string) : string :=
  match parts with
  | [] => ""
  | [p] => p
  | p :: rest => p +:+ sep +:+ join sep rest
  end.

(* ===================================================================== *)
(** ** Exceptions *)
(* ===================================================================== *)

(** Every exception of the model is an instance of [Exception];
    [BaseException]s that are not ([KeyboardInterrupt], [SystemExit]) are
    outside the model.  [exn_str] is [str(e)]. *)
Inductive exc_class : Type :=
| JSONDecodeError
| KeyError
| AttributeError
| TypeError
| GraphRecursionError
| OtherException (name : string).

Record exn : Type := Exn { exn_class : exc_class; exn_str : string }.

Definition is_JSONDecodeError (e : exn) : bool :=
  match exn_class e with
  | JSONDecodeError => true
  | _ => false
  end.

Inductive outcome (A : Type) : Type :=
| Returns (a : A)
| Raises (e : exn).
Arguments Returns {A} a.
Arguments Raises {A} e.

(* ===================================================================== *)
(** ** The outside world *)
(* ===================================================================== *)

(** The three chains [PROMPT | llm | StrOutputParser()] of [tools.py]. *)
Inductive prompt : Type :=
| RELEVANCE_CHECK_PROMPT
| SQL_CONVERSION_PROMPT
| HUMAN_READABLE_PROMPT.

(** External calls, in the order they happen. *)
Inductive event : Type :=
| EvInvoke (p : prompt) (inputs : gmap string pyval)  (* chain.invoke(inputs) *)
| EvSession                                           (* SessionLocal() *)
| EvExecute (statement : string)                      (* db.execute(text(..)) *)
| EvFetchall                                          (* result.fetchall() *)
| EvCommit                                            (* db.commit() *)
| EvRollback                                          (* db.rollback() *)
| EvClose.                                            (* db.close() *)

(** One row of the schema query of [get_database_schema], by attribute. *)
Record SchemaRow : Type := {
  TABLE_NAME : string;
  COLUMN_NAME : string;
  DATA_TYPE : string;
  IS_NULLABLE : string;
  IS_PRIMARY_KEY : string;
}.

(** What [db.execute] hands back: [result.keys()], [result.fetchall()], and,
    for the schema query, the rows seen by iterating over the result. *)
Record CursorResult : Type := {
  result_keys : outcome (list string);
  result_fetchall : outcome (list (list pyval));
  result_iter : outcome (list SchemaRow);
}.

(** Answers may depend on everything that happened before (the list of
    earlier events), so the model is not tied to a deterministic model or
    database.  [Session.rollback] and [Session.close] are taken not to
    fail.  [str_of] is [str(v)] for a [v] that is not already a string.
    [not_a_string] is the message of the TypeError that the interpreter's
    regular expressions raise on a [v] that is not a string: up to Python
    3.10 "expected string or bytes-like object", from 3.11 on followed by
    the type of [v] ([setup.py] asks for Python 3.9 or later). *)
Record World : Type := {
  chain_invoke_answer : list event → prompt → gmap string pyval → outcome string;
  json_loads : string → outcome pyval;
  SessionLocal_answer : list event → outcome unit;
  execute_answer : list event → string → outcome CursorResult;
  commit_answer : list event → outcome unit;
  clock : nat → float;
  str_of : pyval → string;
  not_a_string : pyval → string;
}.

(* ===================================================================== *)
(** ** Mutable state and the monad of the code *)
(* ===================================================================== *)

(** [tool_monitoring.py], lines 11-18.  [timestamp] is the POSIX time the
    [datetime] is built from. *)
Record ToolInvocation : Type := {
  tool_name : string;
  inputs : gmap string pyval;
  outputs : pyval;
  timestamp : float;
  duration : float;
}.

(** The attributes of a [ToolMonitor] instance (lines 23-25). *)
Record ToolMonitor : Type := {
  invocations : list ToolInvocation;
  _start_time : float;
}.

(** The global [tool_monitor], the number of clock readings so far, and the
    external calls so far (oldest first). *)
Record Sys : Type := {
  tool_monitor : ToolMonitor;
  clock_reads : nat;
  trace : list event;
}.

Definition M (A : Type) : Type := World → Sys → outcome A * Sys.

Definition ret {A} (a : A) : M A := λ _ s, (Returns a, s).

Definition raise {A} (e : exn) : M A := λ _ s, (Raises e, s).

Definition bind {A B} (m : M A) (k : A → M B) : M B :=
  λ W s,
    match m W s with
    | (Returns a, s') => k a W s'
    | (Raises e, s') => (Raises e, s')
    end.

Notation "'let*' x := m 'in' k" := (bind m (λ x, k))
  (at level 10, x name, m at level 100, k at level 200,
   format "'[v' 'let*'  x  :=  m  'in' '/' k ']'").
Notation "m ;;; k" := (bind m (λ _, k))
  (at level 100, k at level 200, right associativity).

(** [try: m  except Exception as e: handler e]. *)
Definition try_except {A} (m : M A) (handler : exn → M A) : M A :=
  λ W s,
    match m W s with
    | (Returns a, s') => (Returns a, s')
    | (Raises e, s') => handler e W s'
    end.

(** [try: m  except C as e: handler e], for the exceptions selected by [C]. *)
Definition try_except_only {A} (C : exn → bool) (m : M A) (handler : exn → M A)
  : M A :=
  try_except m (λ e, if C e then handler e else raise e).

(** [try: m  finally: cleanup]. *)
Definition try_finally {A} (m : M A) (cleanup : M unit) : M A :=
  λ W s,
    match m W s with
    | (r, s') =>
        match cleanup W s' with
        | (Returns _, s'') => (r, s'')
        | (Raises e, s'') => (Raises e, s'')
        end
    end.

Definition get_sys : M Sys := λ _ s, (Returns s, s).
Definition ask : M World := λ W s, (Returns W, s).
Definition lift_outcome {A} (o : outcome A) : M A := λ _ s, (o, s).

Definition emit (ev : event) : M unit :=
  λ _ s, (Returns tt,
          {| tool_monitor := tool_monitor s; clock_reads := clock_reads s;
             trace := trace s ++ [ev] |}).

(** [datetime.now().timestamp()]. *)
Definition now_timestamp : M float :=
  λ W s, (Returns (clock W (clock_reads s)),
          {| tool_monitor := tool_monitor s; clock_reads := S (clock_reads s);
             trace := trace s |}).

Definition set_tool_monitor (tm : ToolMonitor) : M unit :=
  λ _ s, (Returns tt,
          {| tool_monitor := tm; clock_reads := clock_reads s; trace := trace s |}).

(** [str(v)] and the f-string conversion [{v}]. *)
Definition py_str (v : pyval) : M string :=
  match v with
  | VStr s => ret s
  | _ => let* W := ask in ret (str_of W v)
  end.

(** [d[k]] on a dictionary: [KeyError] when [k] is missing. *)
Definition subscript (d : gmap string pyval) (k : string) : M pyval :=
  match d !! k with
  | Some v => ret v
  | None => raise (Exn KeyError ("'" +:+ k +:+ "'"))
  end.

(** [v.get(k, default)]: only a dictionary has the method. *)
Definition py_get (v : pyval) (k : string) (default : pyval) : M pyval :=
  match v with
  | VDict d => ret (dict_get d k default)
  | _ => raise (Exn AttributeError "object has no attribute 'get'")
  end.

(** Binding the positional arguments [args] and the keyword arguments
    [kwargs] of a call to the parameter names of the callee (no defaults, no
    variadics): positional arguments fill the parameters from the left,
    keywords the rest; a missing, repeated or unknown parameter is a
    [TypeError] (the messages are shortened). *)
Fixpoint bind_arguments (params : list string) (args : list pyval)
  (kwargs : gmap string pyval) : outcome (list pyval) :=
  match params, args with
  | [], [] =>
      if bool_decide (kwargs = ∅) then Returns []
      else Raises (Exn TypeError "got an unexpected keyword argument")
  | [], _ :: _ => Raises (Exn TypeError "takes fewer positional arguments")
  | p :: params', a :: args' =>
      match kwargs !! p with
      | Some _ => Raises (Exn TypeError "got multiple values for argument")
      | None =>
          match bind_arguments params' args' kwargs with
          | Returns vs => Returns (a :: vs)
          | Raises e => Raises e
          end
      end
  | p :: params', [] =>
      match kwargs !! p with
      | None => Raises (Exn TypeError "missing a required argument")
      | Some a =>
          match bind_arguments params' [] (delete p kwargs) with
          | Returns vs => Returns (a :: vs)
          | Raises e => Raises e
          end
      end
  end.

(** A function of one, respectively two, named parameters, as a callee. *)
Definition def1 (p : string) (f : pyval → M pyval)
  : list pyval → gmap string pyval → M pyval :=
  λ args kwargs,
    let* bound := lift_outcome (bind_arguments [p] args kwargs) in
    match bound with
    | [a] => f a
    | _ => raise (Exn TypeError "wrong number of arguments")
    end.

Definition def2 (p1 p2 : string) (f : pyval → pyval → M pyval)
  : list pyval → gmap string pyval → M pyval :=
  λ args kwargs,
    let* bound := lift_outcome (bind_arguments [p1; p2] args kwargs) in
    match bound with
    | [a; b] => f a b
    | _ => raise (Exn TypeError "wrong number of arguments")
    end.

(** An external call: the world answers from what happened so far, and the
    call is recorded. *)
Definition external {A} (ev : event) (answer : World → list event → outcome A)
  : M A :=
  λ W s, (answer W (trace s),
          {| tool_monitor := tool_monitor s; clock_reads := clock_reads s;
             trace := trace s ++ [ev] |}).

Definition nl : string := String (ascii_of_nat 10) EmptyString.

(* ===================================================================== *)
(** ** tools/tool_monitoring.py *)
(* ===================================================================== *)

Module tool_monitoring.

(** [ToolMonitor.__init__] (lines 23-25). *)
Definition __init__ : ToolMonitor :=
  {| invocations := []; _start_time := 0%float |}.

(** [ToolMonitor.start_invocation] (lines 27-30). *)
Definition start_invocation (tool_name : string) (inputs : gmap string pyval)
  : M unit :=
  let* t := now_timestamp in
  let* s := get_sys in
  set_tool_monitor
    {| invocations := invocations (tool_monitor s); _start_time := t |}.

(** [ToolMonitor.end_invocation] (lines 32-45). *)
Definition end_invocation (tool_name : string) (inputs : gmap string pyval)
  (outputs : pyval) : M unit :=
  let* end_time := now_timestamp in
  let* s := get_sys in
  let self := tool_monitor s in
  let duration := (end_time - _start_time self)%float in
  let invocation :=
    {| tool_name := tool_name; inputs := inputs; outputs := outputs;
       timestamp := _start_time self; duration := duration |} in
  set_tool_monitor
    {| invocations := invocations self ++ [invocation];
       _start_time := _start_time self |}.

(** [ToolMonitor.clear] (lines 47-50). *)
Definition clear : M unit :=
  let* s := get_sys in
  set_tool_monitor
    {| invocations := []; _start_time := _start_time (tool_monitor s) |}.

(** [ToolMonitor.get_invocations] (lines 52-54). *)
Definition get_invocations : M (list ToolInvocation) :=
  let* s := get_sys in ret (invocations (tool_monitor s)).

(** [ToolMonitor.__call__] (lines 56-68): the decorator.  [func_name] is
    [func.__name__]; the result is [wrapper], called with the positional
    arguments [args] and the keyword arguments [kwargs]. *)
Definition __call__ (func_name : string)
  (func : list pyval → gmap string pyval → M pyval)
  : list pyval → gmap string pyval → M pyval :=
  λ args kwargs,
    start_invocation func_name kwargs ;;;
    try_except
      (let* outputs := func args kwargs in
       end_invocation func_name kwargs outputs ;;;
       ret outputs)
      (λ e,
         end_invocation func_name kwargs (VStr ("Error: " +:+ exn_str e)) ;;;
         raise e).

End tool_monitoring.

(* ===================================================================== *)
(** ** database.py *)
(* ===================================================================== *)

Module database.

Definition SessionLocal : M unit := external EvSession SessionLocal_answer.

(** [text(statement)] needs a string: it substitutes the bind parameters
    of the statement with a regular expression, which raises a TypeError on
    anything else. *)
Definition text (statement : pyval) : M string :=
  match statement with
  | VStr s => ret s
  | v => let* W := ask in raise (Exn TypeError (not_a_string W v))
  end.

Definition db_execute (statement : string) : M CursorResult :=
  external (EvExecute statement) (λ W tr, execute_answer W tr statement).

Definition fetchall (result : CursorResult) : M (list (list pyval)) :=
  external EvFetchall (λ _ _, result_fetchall result).

Definition db_commit : M unit := external EvCommit commit_answer.
Definition db_rollback : M unit := emit EvRollback.
Definition db_close : M unit := emit EvClose.

(** [get_db] (lines 50-61), as the [with get_db() as db: body] it is used
    in: the session is made before the [try]; an exception leaving [body]
    is rolled back and raised again; the session is closed in any case. *)
Definition get_db {A} (body : M A) : M A :=
  SessionLocal ;;;
  try_finally
    (try_except body (λ e, db_rollback ;;; raise e))
    db_close.

Definition schema_query : string :=
  "
                SELECT 
                    c.TABLE_NAME,
                    c.COLUMN_NAME,
                    c.DATA_TYPE,
                    c.IS_NULLABLE,
                    CASE 
                        WHEN pk.COLUMN_NAME IS NOT NULL THEN 'YES' 
                        ELSE 'NO' 
                    END as IS_PRIMARY_KEY
                FROM INFORMATION_SCHEMA.COLUMNS c
                LEFT JOIN (
                    SELECT ku.TABLE_NAME, ku.COLUMN_NAME
                    FROM INFORMATION_SCHEMA.TABLE_CONSTRAINTS tc
                    JOIN INFORMATION_SCHEMA.KEY_COLUMN_USAGE ku
                        ON tc.CONSTRAINT_TYPE = 'PRIMARY KEY'
                        AND tc.CONSTRAINT_NAME = ku.CONSTRAINT_NAME
                ) pk 
                    ON c.TABLE_NAME = pk.TABLE_NAME 
                    AND c.COLUMN_NAME = pk.COLUMN_NAME
                WHERE c.TABLE_SCHEMA = 'dbo'
                AND c.TABLE_NAME IN ('remitTransactions', 'customers')
                ORDER BY c.TABLE_NAME, c.ORDINAL_POSITION
            ".

(** The loop of [get_database_schema] (lines 172-182): what it appends to
    [schema_parts], given [current_table]. *)
Fixpoint schema_parts (current_table : option string) (rows : list SchemaRow)
  : list string :=
  match rows with
  | [] => []
  | row :: rest =>
      let heading :=
        if bool_decide (current_table = Some (TABLE_NAME row)) then []
        else [nl +:+ "Table: " +:+ TABLE_NAME row] in
      let pk_indicator :=
        if String.eqb (IS_PRIMARY_KEY row) "YES" then " (Primary Key)" else "" in
      let nullable :=
        if String.eqb (IS_NULLABLE row) "YES" then "NULL" else "NOT NULL" in
      heading
      ++ ["- " +:+ COLUMN_NAME row +:+ ": " +:+ DATA_TYPE row +:+ " "
          +:+ nullable +:+ pk_indicator]
      ++ schema_parts (Some (TABLE_NAME row)) rest
  end.

(** [get_database_schema] (lines 140-191). *)
Definition get_database_schema : M string :=
  try_except
    (get_db
       (let* result := db_execute schema_query in
        let* rows := lift_outcome (result_iter result) in
        ret (join nl (schema_parts None rows))))
    (λ e,
       let error_msg := "Error retrieving database schema: " +:+ exn_str e in
       ret ("Error: " +:+ error_msg)).

(** [INCLUDED_TABLES] (lines 17-20), as the module is loaded. *)
Definition INCLUDED_TABLES : gset string :=
  {[ "dbo.remitTransactions"; "dbo.customers" ]}.

(** [add_table_to_schema] (lines 63-71).  The module global
    [INCLUDED_TABLES] is passed in and handed back with the result. *)
Definition add_table_to_schema (table_name : string) (tables : gset string)
  : bool * gset string :=
  if bool_decide (table_name ∈ tables) then (false, tables)
  else (true, {[ table_name ]} ∪ tables).

(** [remove_table_from_schema] (lines 73-81), likewise. *)
Definition remove_table_from_schema (table_name : string) (tables : gset string)
  : bool * gset string :=
  if bool_decide (table_name ∉ tables) then (false, tables)
  else (true, tables ∖ {[ table_name ]}).

End database.

(* ===================================================================== *)
(** ** tools/tools.py *)
(* ===================================================================== *)

Module tools.
Import database.

(** [chain = PROMPT | llm | StrOutputParser()] followed by
    [chain.invoke(inputs)]. *)
Definition chain_invoke (p : prompt) (inputs : gmap string pyval) : M string :=
  external (EvInvoke p inputs) (λ W tr, chain_invoke_answer W tr p inputs).

(** [json.loads(result)]. *)
Definition loads (result : string) : M pyval :=
  let* W := ask in lift_outcome (json_loads W result).

(** The dictionary literal written at lines 42-52, 66-76 and 80-90; the
    three differ in the explanation only. *)
Definition response (explanation : string) : gmap string pyval :=
  {[ "relevant" := VBool false;
     "tables" := VList [];
     "breakdown" :=
       VDict {[ "intent" := VStr "unknown";
                "entities" := VList [];
                "conditions" := VList [];
                "timeframe" := VStr "none" ]};
     "explanation" := VStr explanation ]}.

(** [check_relevance] (lines 25-90), before decoration. *)
Definition check_relevance__wrapped__ (question : pyval) : M pyval :=
  try_except
    (let* result := chain_invoke RELEVANCE_CHECK_PROMPT {[ "question" := question ]} in
     try_except_only is_JSONDecodeError
       (let* parsed_result := loads result in
        let default_response := response "No explanation provided" in
        match parsed_result with
        | VDict parsed_result =>
            ret (VDict (dict_update default_response parsed_result))
        | _ => ret (VDict default_response)
        end)
       (λ e, ret (VDict (response "Failed to parse response"))))
    (λ e, ret (VDict (response ("Error: " +:+ exn_str e)))).

Definition check_relevance :=
  tool_monitoring.__call__ "check_relevance"
    (def1 "question" check_relevance__wrapped__).

(** [convert_to_sql] (lines 93-114), before decoration. *)
Definition convert_to_sql__wrapped__ (question context : pyval) : M pyval :=
  try_except
    (let* schema := get_database_schema in
     let* result :=
       chain_invoke SQL_CONVERSION_PROMPT
         {[ "schema" := VStr schema;
            "question" := question;
            "breakdown" := context ]} in
     ret (VStr result))
    (λ e, ret VNone).

Definition convert_to_sql :=
  tool_monitoring.__call__ "convert_to_sql"
    (def2 "question" "context" convert_to_sql__wrapped__).

(** [execute_sql_query] (lines 117-148), before decoration. *)
Definition execute_sql_query__wrapped__ (query : pyval) : M pyval :=
  get_db
    (try_except
       (let* statement := text query in
        let* result := db_execute statement in
        if startswith (strip (lower statement)) "select" then
          let* rows := fetchall result in
          let* columns := lift_outcome (result_keys result) in
          let formatted_rows :=
            (λ row, VDict (py_dict (zip columns row))) <$> rows in
          ret (VDict {[ "success" := VBool true;
                        "rows" := VList formatted_rows;
                        "columns" := VList (VStr <$> columns) ]})
        else
          db_commit ;;;
          ret (VDict {[ "success" := VBool true ]}))
       (λ e,
          let error_msg := exn_str e in
          ret (VDict {[ "success" := VBool false;
                        "error" := VStr error_msg ]}))).

Definition execute_sql_query :=
  tool_monitoring.__call__ "execute_sql_query"
    (def1 "query" execute_sql_query__wrapped__).

(** [generate_human_readable] (lines 151-168), before decoration. *)
Definition generate_human_readable__wrapped__ (sql result : pyval) : M pyval :=
  try_except
    (let* response :=
       chain_invoke HUMAN_READABLE_PROMPT {[ "sql" := sql; "result" := result ]} in
     ret (VStr response))
    (λ e, ret (VStr ("Error processing results: " +:+ exn_str e))).

Definition generate_human_readable :=
  tool_monitoring.__call__ "generate_human_readable"
    (def2 "sql" "result" generate_human_readable__wrapped__).

End tools.

(* ===================================================================== *)
(** ** core/sql_agent.py *)
(* ===================================================================== *)

Module sql_agent.

(** The attribute of an [SQLAgent] that [run] uses: the compiled graph,
    through its [invoke]. *)
Record SQLAgent : Type := {
  workflow : gmap string pyval → M pyval;
}.

(** [SQLAgent._check_relevance] (lines 50-74). *)
Definition _check_relevance (state : gmap string pyval) : M (gmap string pyval) :=
  try_except
    (let* question := subscript state "question" in
     let* relevance_result := tools.check_relevance [question] ∅ in
     ret (<["relevance_result" := relevance_result]> state))
    (λ e,
       let error_msg := "Error in relevance check: " +:+ exn_str e in
       ret (<["relevance_result" :=
                VDict {[ "relevant" := VBool false;
                         "explanation" := VStr error_msg;
                         "tables" := VList [];
                         "breakdown" :=
                           VDict {[ "intent" := VStr "unknown";
                                    "entities" := VList [];
                                    "conditions" := VList [];
                                    "timeframe" := VStr "none" ]} ]}]> state)).

(** [SQLAgent._convert_to_sql] (lines 76-98). *)
Definition _convert_to_sql (state : gmap string pyval) : M (gmap string pyval) :=
  try_except
    (let* question := subscript state "question" in
     let* relevance_result := subscript state "relevance_result" in
     let* sql_query := tools.convert_to_sql [question; relevance_result] ∅ in
     ret (<["sql_error" := VBool (negb (truthy sql_query))]>
            (<["sql_query" := if truthy sql_query then sql_query else VStr ""]>
               state)))
    (λ e,
       let error_msg := "Error in SQL conversion: " +:+ exn_str e in
       ret (<["query_result" := VStr error_msg]>
              (<["sql_query" := VStr ""]>
                 (<["sql_error" := VBool true]> state)))).

(** [SQLAgent._execute_sql] (lines 100-137). *)
Definition _execute_sql (state : gmap string pyval) : M (gmap string pyval) :=
  let* sql_query := subscript state "sql_query" in
  if negb (truthy sql_query) then
    ret (<["query_result" := VStr "Failed to generate SQL query"]>
           (<["sql_error" := VBool true]> state))
  else
    try_except
      (let* sql_query := subscript state "sql_query" in
       let* result := tools.execute_sql_query [sql_query] ∅ in
       let* success := py_get result "success" VNone in
       if negb (truthy success) then
         let* error_msg :=
           py_get result "error" (VStr "Unknown error during query execution") in
         let* error_text := py_str error_msg in
         ret (<["query_result" := VStr ("Error: " +:+ error_text)]>
                (<["sql_error" := VBool true]> state))
       else
         let* rows := py_get result "rows" (VList []) in
         let* columns := py_get result "columns" (VList []) in
         ret (<["query_result" := VStr "Query executed successfully"]>
                (<["columns" := columns]>
                   (<["query_rows" := rows]>
                      (<["sql_error" := VBool false]> state)))))
      (λ e,
         let error_msg := "Error executing SQL: " +:+ exn_str e in
         ret (<["query_result" := VStr error_msg]>
                (<["sql_error" := VBool true]> state))).

(** [SQLAgent._generate_human_readable] (lines 139-158). *)
Definition _generate_human_readable (state : gmap string pyval)
  : M (gmap string pyval) :=
  try_except
    (let* sql_query := subscript state "sql_query" in
     let* query_rows := subscript state "query_rows" in
     let* columns := subscript state "columns" in
     let* sql_error := subscript state "sql_error" in
     let* question := subscript state "question" in
     let* response :=
       tools.generate_human_readable
         [sql_query;
          VDict {[ "rows" := query_rows;
                   "columns" := columns;
                   "success" := VBool (negb (truthy sql_error));
                   "question" := question ]}] ∅ in
     ret (<["query_result" := response]> state))
    (λ e,
       let error_msg := "Error generating readable response: " +:+ exn_str e in
       ret (<["query_result" := VStr error_msg]> state)).

(** The nodes of the graph of [SQLAgent._create_workflow] (lines 160-187),
    by their labels. *)
Module node.
Inductive t : Type :=
| check_relevance
| convert_to_sql
| execute_sql
| generate_human_readable.
End node.

(** [workflow.add_node] (lines 165-168). *)
Definition node_action (n : node.t) : gmap string pyval → M (gmap string pyval) :=
  match n with
  | node.check_relevance => _check_relevance
  | node.convert_to_sql => _convert_to_sql
  | node.execute_sql => _execute_sql
  | node.generate_human_readable => _generate_human_readable
  end.

(** The edges (lines 174-185); [None] is [END].  The condition on
    [check_relevance] is the lambda of line 176. *)
Definition next_node (n : node.t) (x : gmap string pyval) : M (option node.t) :=
  match n with
  | node.check_relevance =>
      let* relevance_result := subscript x "relevance_result" in
      let* relevant := py_get relevance_result "relevant" (VBool false) in
      ret (if truthy relevant then Some node.convert_to_sql else None)
  | node.convert_to_sql => ret (Some node.execute_sql)
  | node.execute_sql => ret (Some node.generate_human_readable)
  | node.generate_human_readable => ret None
  end.

(** Running the compiled graph from node [n]: the node's function gives the
    new state, the edge out of it the next node.  [limit] is the library's
    bound on the number of steps. *)
Fixpoint invoke_from (limit : nat) (n : node.t) (state : gmap string pyval)
  : M pyval :=
  match limit with
  | 0 => raise (Exn GraphRecursionError "Recursion limit reached")
  | S limit' =>
      let* state' := node_action n state in
      let* next := next_node n state' in
      match next with
      | None => ret (VDict state')
      | Some n' => invoke_from limit' n' state'
      end
  end.

Definition recursion_limit : nat := 25.

(** [SQLAgent._create_workflow]: entry point [check_relevance] (line 171). *)
Definition _create_workflow : gmap string pyval → M pyval :=
  invoke_from recursion_limit node.check_relevance.

(** [SQLAgent.__init__], line 25.  (The connection test of lines 28-46 comes
    before any [run] and takes no part in it.) *)
Definition __init__ : SQLAgent := {| workflow := _create_workflow |}.

(** The dictionary of lines 193-202. *)
Definition initial_state (question : string) : gmap string pyval :=
  {[ "question" := VStr question;
     "relevance_result" := VNone;
     "sql_query" := VStr "";
     "query_result" := VStr "";
     "query_rows" := VList [];
     "columns" := VList [];
     "attempts" := VInt 0;
     "sql_error" := VBool false ]}.

(** [SQLAgent.run] (lines 189-226). *)
Definition run (self : SQLAgent) (question : string) : M pyval :=
  try_except
    (let* result := workflow self (initial_state question) in
     match result with
     | VDict result =>
         ret (VDict
                {[ "query_result" :=
                     dict_get result "query_result" (VStr "Error processing request");
                   "relevance_result" := dict_get result "relevance_result" VNone;
                   "sql_query" := dict_get result "sql_query" VNone ]})
     | _ =>
         ret (VDict {[ "query_result" := VStr "Error: Unexpected result type";
                       "relevance_result" := VNone;
                       "sql_query" := VNone ]})
     end)
    (λ e,
       ret (VDict
              {[ "query_result" := VStr ("Error processing request: " +:+ exn_str e);
                 "relevance_result" := VNone;
                 "sql_query" := VNone ]})).

(** The statement of lines 35-40. *)
Definition tables_count_query : string :=
  "
                    SELECT COUNT(*) as table_count
                    FROM INFORMATION_SCHEMA.TABLES
                    WHERE TABLE_SCHEMA = 'dbo'
                    AND TABLE_TYPE = 'BASE TABLE'
                ".

(** [result.scalar()]: the first column of the first row fetched, [None]
    when there is no row. *)
Definition scalar (result : CursorResult) : M pyval :=
  let* rows := database.fetchall result in
  ret (match rows with
       | (cell :: _) :: _ => cell
       | _ => VNone
       end).

(** [SQLAgent.__init__] in full (lines 22-48): the graph is compiled, then
    the connection is tried, and any failure becomes a [RuntimeError]. *)
Definition SQLAgent__init__ : M SQLAgent :=
  let workflow := _create_workflow in
  try_except
    (database.get_db
       (let* select_1 := database.text (VStr "SELECT 1") in
        let* _ := database.db_execute select_1 in
        let* query := database.text (VStr tables_count_query) in
        let* result := database.db_execute query in
        let* tables_count := scalar result in
        ret tt))
    (λ e,
       raise (Exn (OtherException "RuntimeError")
                ("Database connection failed: " +:+ exn_str e))) ;;;
  ret {| workflow := workflow |}.

End sql_agent.

(* ===================================================================== *)
(** ** ui/streamlit_app.py *)
(* ===================================================================== *)

Module streamlit_app.

(** [needle in v], for a string [needle]: a substring of a string, an
    element of a list, a key of a dictionary; other values do not support
    the test. *)
Definition py_in (needle : string) (v : pyval) : outcome bool :=
  match v with
  | VStr s => Returns (contains s needle)
  | VList l =>
      Returns (existsb (λ x, match x with
                             | VStr s => String.eqb s needle
                             | _ => false
                             end) l)
  | VDict d => Returns (bool_decide (is_Some (d !! needle)))
  | _ => Raises (Exn TypeError "argument is not iterable")
  end.

(** [format_query_result] (lines 25-34), on the dictionary its type hint
    announces. *)
Definition format_query_result (result : gmap string pyval) : outcome pyval :=
  if negb (truthy (VDict result))
     || negb (bool_decide (is_Some (result !! "query_result")))
  then Returns (VStr "No results to display")
  else
    let query_result := dict_get result "query_result" VNone in
    match py_in "|" query_result with
    | Raises e => Raises e
    | Returns false => Returns query_result
    | Returns true =>
        match py_in "-|-" query_result with
        | Raises e => Raises e
        | Returns true => Returns query_result
        | Returns false => Returns query_result
        end
    end.

End streamlit_app.

(* ===================================================================== *)
(** ** config.py *)
(* ===================================================================== *)

Module config.

(** The attributes of [Settings] that [connection_string] reads. *)
Record Settings : Type := {
  DB_TYPE : string;
  DB_DRIVER : string;
  DB_SERVER : string;
  DB_NAME : string;
  DB_USER : string;
  DB_PASSWORD : string;
  DB_PORT : Z;
}.

(** [s.split("#")[0]]: what comes before the first [#]. *)
Fixpoint before_hash (s : string) : string :=
  match s with
  | EmptyString => EmptyString
  | String c s' =>
      if Ascii.eqb c "#" then EmptyString else String c (before_hash s')
  end.

(** [s.replace(" ", "+")]. *)
Fixpoint spaces_to_plus (s : string) : string :=
  match s with
  | EmptyString => EmptyString
  | String c s' =>
      String (if Ascii.eqb c " " then "+"%char else c) (spaces_to_plus s')
  end.

(** [Settings.connection_string] (lines 80-98). *)
Definition connection_string (self : Settings) : outcome string :=
  let db_type := strip (before_hash (strip (lower (DB_TYPE self)))) in
  if String.eqb db_type "mssql" then
    let driver := spaces_to_plus (DB_DRIVER self) in
    Returns ("mssql+pyodbc://" +:+ DB_USER self +:+ ":" +:+ DB_PASSWORD self
             +:+ "@" +:+ DB_SERVER self +:+ ":" +:+ pretty (DB_PORT self)
             +:+ "/" +:+ DB_NAME self +:+ "?driver=" +:+ driver)
  else
    Raises (Exn (OtherException "ValueError")
              ("Unsupported database type: " +:+ db_type +:+ ". "
               +:+ "Currently only 'mssql' is supported.")).

End config.

Import tool_monitoring database tools sql_agent.
Import streamlit_app config.

(* ===================================================================== *)
(** ** Vocabulary of the statements *)
(* ===================================================================== *)

(** The state once [start_invocation] has run in state [s]. *)
Definition started (W : World) (s : Sys) : Sys :=
  {| tool_monitor :=
       {| invocations := invocations (tool_monitor s);
          _start_time := clock W (clock_reads s) |};
     clock_reads := S (clock_reads s);
     trace := trace s |}.

(** The state once [end_invocation] has run in state [s1]: one more clock
    reading, and one more entry at the end of the log. *)
Definition recorded (W : World) (name : string) (kwargs : gmap string pyval)
  (outputs : pyval) (s1 : Sys) : Sys :=
  {| tool_monitor :=
       {| invocations :=
            invocations (tool_monitor s1)
            ++ [ {| tool_name := name; inputs := kwargs; outputs := outputs;
                    timestamp := _start_time (tool_monitor s1);
                    duration := (clock W (clock_reads s1)
                                 - _start_time (tool_monitor s1))%float |} ];
          _start_time := _start_time (tool_monitor s1) |};
     clock_reads := S (clock_reads s1);
     trace := trace s1 |}.

(** State [s] with the external calls [evs] added to its trace. *)
Definition after (evs : list event) (s : Sys) : Sys :=
  {| tool_monitor := tool_monitor s; clock_reads := clock_reads s;
     trace := trace s ++ evs |}.

(** The log of [s'] is the log of [s] followed by entries that satisfy [P]. *)
Definition log_grows (P : ToolInvocation → Prop) (s s' : Sys) : Prop :=
  ∃ l, invocations (tool_monitor s') = invocations (tool_monitor s) ++ l
       ∧ Forall P l.

(** The computation [m] only ever adds entries that satisfy [P] to the log. *)
Definition logs_only {A} (P : ToolInvocation → Prop) (m : M A) : Prop :=
  ∀ W s, log_grows P s (m W s).2.

(** The model call of the classifier (lines 31-32). *)
Definition asked (question : pyval) : event :=
  EvInvoke RELEVANCE_CHECK_PROMPT {[ "question" := question ]}.

(** The model call of the formatter (lines 157-161). *)
Definition formatted (sql result : pyval) : event :=
  EvInvoke HUMAN_READABLE_PROMPT {[ "sql" := sql; "result" := result ]}.

(** The four keys of a relevance result, and of its breakdown. *)
Definition relevance_keys : list string :=
  ["relevant"; "tables"; "breakdown"; "explanation"].
Definition breakdown_keys : list string :=
  ["intent"; "entities"; "conditions"; "timeframe"].

(** The test of [tools.py] line 126 on a statement. *)
Definition first_keyword_is_select (query : string) : bool :=
  startswith (strip (lower query)) "select".

(** The first word of a statement, in lower case: the letters it starts
    with once leading white space is dropped. *)
Definition is_alpha (c : ascii) : bool :=
  let n := nat_of_ascii c in
  ((65 <=? n) && (n <=? 90)) || ((97 <=? n) && (n <=? 122)).

Fixpoint leading_letters (s : string) : string :=
  match s with
  | EmptyString => EmptyString
  | String c s' => if is_alpha c then String c (leading_letters s') else EmptyString
  end.

Definition first_word (query : string) : string :=
  leading_letters (lstrip (lower query)).





(** The stage that failed to execute a statement leaves [message] in
    [query_result]: the executor reported the driver's text, or raised. *)
Inductive execution_fails : outcome pyval → string → Prop :=
| fails_reported (driver_text : string) :
    execution_fails
      (Returns (VDict {[ "success" := VBool false; "error" := VStr driver_text ]}))
      ("Error: " +:+ driver_text)
| fails_raised (e : exn) :
    execution_fails (Raises e) ("Error executing SQL: " +:+ exn_str e).

(** The state a run is in when the classifier has answered [rr]. *)
Definition classified (question : string) (rr : pyval) : gmap string pyval :=
  <["relevance_result" := rr]> (initial_state question).

(** The state a run is in when, after that, the synthesizer has answered
    [sql] (lines 85-89). *)
Definition synthesized (question : string) (rr sql : pyval) : gmap string pyval :=
  <["sql_error" := VBool (negb (truthy sql))]>
    (<["sql_query" := if truthy sql then sql else VStr ""]>
       (classified question rr)).

(** What the formatter is called with when execution has not succeeded
    (lines 143-149): the second positional argument. *)
Definition failure_context (question : string) : pyval :=
  VDict {[ "rows" := VList [];
           "columns" := VList [];
           "success" := VBool false;
           "question" := VStr question ]}.

(** The inputs of the formatter's model calls in a trace, oldest first. *)
Fixpoint formatter_calls (tr : list event) : list (gmap string pyval) :=
  match tr with
  | [] => []
  | EvInvoke HUMAN_READABLE_PROMPT inputs :: tr' => inputs :: formatter_calls tr'
  | _ :: tr' => formatter_calls tr'
  end.

(* ===================================================================== *)
(** ** Scenarios: concrete worlds *)
(* ===================================================================== *)

Definition dq : string := String (ascii_of_nat 34) EmptyString.
Definition quoted (s : string) : string := dq +:+ s +:+ dq.

(** A world that answers by table, whatever happened before. *)
Record Script : Type := {
  say : prompt → outcome string;
  parse : list (string * pyval);
  session : outcome unit;
  execute : string → outcome CursorResult;
  commit : outcome unit;
}.

Fixpoint assoc {A} (k : string) (l : list (string * A)) : option A :=
  match l with
  | [] => None
  | (k', v) :: l' => if String.eqb k k' then Some v else assoc k l'
  end.

(** [type(v).__name__].  The scripted worlds run Python 3.11, and their
    opaque objects are [Decimal]s. *)
Definition type_name (v : pyval) : string :=
  match v with
  | VNone => "NoneType"
  | VBool _ => "bool"
  | VInt _ => "int"
  | VFloat _ => "float"
  | VStr _ => "str"
  | VList _ => "list"
  | VDict _ => "dict"
  | VOpaque _ => "Decimal"
  end.

Definition world_of (sc : Script) : World :=
  {| chain_invoke_answer := λ _ p _, say sc p;
     json_loads := λ text,
       match assoc text (parse sc) with
       | Some v => Returns v
       | None => Raises (Exn JSONDecodeError "Expecting value: line 1 column 1 (char 0)")
       end;
     SessionLocal_answer := λ _, session sc;
     execute_answer := λ _ statement, execute sc statement;
     commit_answer := λ _, commit sc;
     clock := λ _, 0%float;
     str_of := λ _, "<object>";
     not_a_string := λ v,
       "expected string or bytes-like object, got '" +:+ type_name v +:+ "'" |}.

(** The state of a fresh process: empty log, nothing has happened. *)
Definition fresh : Sys :=
  {| tool_monitor := tool_monitoring.__init__; clock_reads := 0; trace := [] |}.

Definition no_rows : CursorResult :=
  {| result_keys := Returns []; result_fetchall := Returns [];
     result_iter := Returns [] |}.

Definition unavailable {A} : outcome A :=
  Raises (Exn (OtherException "APIConnectionError") "Connection error.").

(** Scenario B of the specification: a question about the weather. *)
Definition weather_question : string := "What's the weather today?".
Definition weather_explanation : string :=
  "Question is about weather, unrelated to remittance or customer data".
Definition weather_text : string :=
  "{" +:+ quoted "relevant" +:+ ": false, " +:+ quoted "tables" +:+ ": [], "
  +:+ quoted "breakdown" +:+ ": {" +:+ quoted "intent" +:+ ": "
  +:+ quoted "unknown" +:+ ", " +:+ quoted "entities" +:+ ": [], "
  +:+ quoted "conditions" +:+ ": [], " +:+ quoted "timeframe" +:+ ": "
  +:+ quoted "none" +:+ "}, " +:+ quoted "explanation" +:+ ": "
  +:+ quoted weather_explanation +:+ "}".
Definition weather_value : pyval := VDict (response weather_explanation).

Definition weather_world : World :=
  world_of {| say := λ p, match p with
                          | RELEVANCE_CHECK_PROMPT => Returns weather_text
                          | _ => unavailable
                          end;
              parse := [(weather_text, weather_value)];
              session := Returns tt;
              execute := λ _, Returns no_rows;
              commit := Returns tt |}.

(** The model answers with a mapping whose breakdown has one key only. *)
Definition partial_text : string :=
  "{" +:+ quoted "relevant" +:+ ": true, " +:+ quoted "breakdown" +:+ ": {"
  +:+ quoted "intent" +:+ ": " +:+ quoted "lookup" +:+ "}}".
Definition partial_value : pyval :=
  VDict {[ "relevant" := VBool true;
           "breakdown" := VDict {[ "intent" := VStr "lookup" ]} ]}.

Definition partial_world : World :=
  world_of {| say := λ p, match p with
                          | RELEVANCE_CHECK_PROMPT => Returns partial_text
                          | _ => unavailable
                          end;
              parse := [(partial_text, partial_value)];
              session := Returns tt;
              execute := λ _, Returns no_rows;
              commit := Returns tt |}.

(** The model answers with well-formed JSON that is a list, not a mapping;
    and, for comparison, with text that is not JSON at all. *)
Definition list_world : World :=
  world_of {| say := λ _, Returns "[]";
              parse := [("[]", VList [])];
              session := Returns tt;
              execute := λ _, Returns no_rows;
              commit := Returns tt |}.

Definition prose_world : World :=
  world_of {| say := λ _, Returns "Sure! Here is the analysis you asked for.";
              parse := [];
              session := Returns tt;
              execute := λ _, Returns no_rows;
              commit := Returns tt |}.

(** Scenario C of the specification: the synthesized statement is refused
    by the database. *)
Definition customers_question : string := "Show all customers".
Definition customers_text : string :=
  "{" +:+ quoted "relevant" +:+ ": true, " +:+ quoted "explanation" +:+ ": "
  +:+ quoted "Lists the customers table" +:+ "}".
Definition customers_value : pyval :=
  VDict {[ "relevant" := VBool true;
           "explanation" := VStr "Lists the customers table" ]}.
Definition customers_value_merged : pyval :=
  VDict (dict_update (response "No explanation provided")
           {[ "relevant" := VBool true;
              "explanation" := VStr "Lists the customers table" ]}).
Definition broken_statement : string := "SELEC * FROM dbo.customers".
Definition driver_text : string := "Incorrect syntax near '*'.".
Definition syntax_error : exn := Exn (OtherException "ProgrammingError") driver_text.
Definition apology : string := "The query could not be run.".

Definition syntax_error_world : World :=
  world_of {| say := λ p, match p with
                          | RELEVANCE_CHECK_PROMPT => Returns customers_text
                          | SQL_CONVERSION_PROMPT => Returns broken_statement
                          | HUMAN_READABLE_PROMPT => Returns apology
                          end;
              parse := [(customers_text, customers_value)];
              session := Returns tt;
              execute := λ statement,
                if String.eqb statement schema_query then Returns no_rows
                else Raises syntax_error;
              commit := Returns tt |}.

Definition syntax_error_s1 : Sys :=
  (check_relevance [VStr customers_question] ∅ syntax_error_world fresh).2.
Definition syntax_error_s2 : Sys :=
  (convert_to_sql [VStr customers_question; customers_value_merged] ∅
     syntax_error_world syntax_error_s1).2.
Definition syntax_error_s3 : Sys :=
  (execute_sql_query [VStr broken_statement] ∅ syntax_error_world
     syntax_error_s2).2.

(** The schema query itself is refused. *)
Definition schema_error_world : World :=
  world_of {| say := λ _, unavailable;
              parse := [];
              session := Returns tt;
              execute := λ _, Raises syntax_error;
              commit := Returns tt |}.

(** The synthesizer's model call fails. *)
Definition no_synthesis_world : World :=
  world_of {| say := λ p, match p with
                          | RELEVANCE_CHECK_PROMPT => Returns customers_text
                          | SQL_CONVERSION_PROMPT => unavailable
                          | HUMAN_READABLE_PROMPT => Returns apology
                          end;
              parse := [(customers_text, customers_value)];
              session := Returns tt;
              execute := λ _, Returns no_rows;
              commit := Returns tt |}.

Definition no_synthesis_s1 : Sys :=
  (check_relevance [VStr customers_question] ∅ no_synthesis_world fresh).2.
Definition no_synthesis_s2 : Sys :=
  (convert_to_sql [VStr customers_question; customers_value_merged] ∅
     no_synthesis_world no_synthesis_s1).2.

Definition update_statement : string :=
  "UPDATE dbo.customers SET country = 'USA' WHERE id = 1".




(* ===================================================================== *)
(** ** Vocabulary of the further statements *)
(* ===================================================================== *)

(** The tool names of the log, oldest first. *)
Definition names (s : Sys) : list string :=
  tool_name <$> invocations (tool_monitor s).

(** The computation [m] leaves the recorder and the clock alone. *)
Definition quiet {A} (m : M A) : Prop :=
  ∀ W s, tool_monitor (m W s).2 = tool_monitor s
         ∧ clock_reads (m W s).2 = clock_reads s.

(** Whatever [m] returns satisfies [Q]. *)
Definition returns_only {A} (Q : A → Prop) (m : M A) : Prop :=
  ∀ W s a s', m W s = (Returns a, s') → Q a.

(** What the recorder stores as outputs for an outcome (lines 63 and 66). *)
Definition outputs_of (r : outcome pyval) : pyval :=
  match r with
  | Returns v => v
  | Raises e => VStr ("Error: " +:+ exn_str e)
  end.

(** The states a run goes through for [question]: the keys of the initial
    state, the question and the attempts counter as they were, and strings
    under sql_query and query_result. *)
Definition pipeline_state (question : string) (x : gmap string pyval) : Prop :=
  dom x = dom (initial_state question)
  ∧ x !! "question" = Some (VStr question)
  ∧ x !! "attempts" = Some (VInt 0)
  ∧ (∃ text, x !! "sql_query" = Some (VStr text))
  ∧ (∃ text, x !! "query_result" = Some (VStr text)).

(** The three logs a run can leave. *)
Definition run_logs : list (list string) :=
  [ ["check_relevance"];
    ["check_relevance"; "convert_to_sql"; "generate_human_readable"];
    ["check_relevance"; "convert_to_sql"; "execute_sql_query";
     "generate_human_readable"] ].

(** The two kinds of lines of the schema description (lines 176 and
    178-182). *)
Definition table_heading (table : string) : string :=
  nl +:+ "Table: " +:+ table.

Definition column_line (row : SchemaRow) : string :=
  "- " +:+ COLUMN_NAME row +:+ ": " +:+ DATA_TYPE row +:+ " "
  +:+ (if String.eqb (IS_NULLABLE row) "YES" then "NULL" else "NOT NULL")
  +:+ (if String.eqb (IS_PRIMARY_KEY row) "YES" then " (Primary Key)" else "").

(** The model call of the synthesizer (lines 103-108). *)
Definition synthesis_inputs (schema : string) (question context : pyval)
  : gmap string pyval :=
  {[ "schema" := VStr schema; "question" := question; "breakdown" := context ]}.

(** What the formatter is called with after an execution that succeeded
    (lines 143-149): the second positional argument. *)
Definition success_context (question : string) (rows columns : pyval) : pyval :=
  VDict {[ "rows" := rows;
           "columns" := columns;
           "success" := VBool true;
           "question" := VStr question ]}.

(** A string of white space only. *)
Fixpoint blank (s : string) : bool :=
  match s with
  | EmptyString => true
  | String c s' => isspace c && blank s'
  end.

(** The URL of lines 90-94. *)
Definition mssql_url (self : Settings) : string :=
  "mssql+pyodbc://" +:+ DB_USER self +:+ ":" +:+ DB_PASSWORD self
  +:+ "@" +:+ DB_SERVER self +:+ ":" +:+ pretty (DB_PORT self)
  +:+ "/" +:+ DB_NAME self +:+ "?driver=" +:+ spaces_to_plus (DB_DRIVER self).

(** More scenarios: the model synthesizes a join, respectively an update,
    and the database accepts it. *)
Definition listing : string := "Two customers sent money.".



Definition update_run_world : World :=
  world_of {| say := λ p, match p with
                          | RELEVANCE_CHECK_PROMPT => Returns customers_text
                          | SQL_CONVERSION_PROMPT => Returns update_statement
                          | HUMAN_READABLE_PROMPT => Returns listing
                          end;
              parse := [(customers_text, customers_value)];
              session := Returns tt;
              execute := λ _, Returns no_rows;
              commit := Returns tt |}.

Definition update_run_s1 : Sys :=
  (check_relevance [VStr customers_question] ∅ update_run_world fresh).2.
Definition update_run_s2 : Sys :=
  (convert_to_sql [VStr customers_question; customers_value_merged] ∅
     update_run_world update_run_s1).2.

Definition settings_example : Settings :=
  {| DB_TYPE := "  MsSQL   # production";
     DB_DRIVER := "ODBC Driver 17 for SQL Server";
     DB_SERVER := "db.example.org";
     DB_NAME := "remit";
     DB_USER := "agent";
     DB_PASSWORD := "secret";
     DB_PORT := 1433 |}.

(* ===================================================================== *)
(** * Properties *)
(* ===================================================================== *)

(** ** Sanity checks of the embedding *)

Example lower_strip_example :
  strip (lower (nl +:+ "  SeLeCT Name FROM t " +:+ nl)) = "select name from t".
Proof. reflexivity. Qed.

Example first_keyword_examples :
  first_keyword_is_select "  SeLeCT 1 " = true
  ∧ first_keyword_is_select "WITH t AS (SELECT 1) SELECT * FROM t" = false
  ∧ first_keyword_is_select "" = false.
Proof. repeat split. Qed.

Example py_dict_example :
  py_dict [("id", VInt 1); ("name", VStr "Ann"); ("id", VInt 7)]
  = {[ "id" := VInt 7; "name" := VStr "Ann" ]}.
Proof. vm_compute. reflexivity. Qed.

Example bind_arguments_examples :
  bind_arguments ["sql"; "result"] [VStr "a"] {[ "result" := VNone ]}
  = Returns [VStr "a"; VNone]
  ∧ bind_arguments ["query"] [] ∅
    = Raises (Exn TypeError "missing a required argument").
Proof. split; vm_compute; reflexivity. Qed.

Example schema_parts_example :
  join nl
    (schema_parts None
       [ {| TABLE_NAME := "customers"; COLUMN_NAME := "id"; DATA_TYPE := "int";
            IS_NULLABLE := "NO"; IS_PRIMARY_KEY := "YES" |};
         {| TABLE_NAME := "customers"; COLUMN_NAME := "country";
            DATA_TYPE := "nvarchar"; IS_NULLABLE := "YES";
            IS_PRIMARY_KEY := "NO" |} ])
  = nl +:+ "Table: customers" +:+ nl
    +:+ "- id: int NOT NULL (Primary Key)" +:+ nl
    +:+ "- country: nvarchar NULL".
Proof. reflexivity. Qed.

(** A call by keyword is recorded with its argument; a positional call of
    the same function is recorded with empty inputs. *)
Example keyword_call_example :
  inputs <$> invocations
               (tool_monitor
                  (check_relevance [] {[ "question" := VStr customers_question ]}
                     list_world fresh).2)
  = [ {[ "question" := VStr customers_question ]} ]
  ∧ inputs <$> invocations
                 (tool_monitor
                    (check_relevance [VStr customers_question] ∅
                       list_world fresh).2)
    = [ ∅ ].
Proof. split; vm_compute; reflexivity. Qed.

(** ** Python dictionaries and calls *)

Lemma py_dict_snoc pairs k v :
  py_dict (pairs ++ [(k, v)]) = <[k := v]> (py_dict pairs).
Proof. unfold py_dict. by rewrite foldl_app. Qed.

Lemma py_dict_lookup_None pairs k :
  k ∉ pairs.*1 → py_dict pairs !! k = None.
Proof.
  induction pairs as [|[k' v'] pairs IH] using rev_ind; intros Hk.
  - apply lookup_empty.
  - rewrite py_dict_snoc. rewrite fmap_app in Hk. cbn in Hk.
    rewrite lookup_insert_ne.
    + apply IH. intros Hin. apply Hk. apply elem_of_app. by left.
    + intros ->. apply Hk. apply elem_of_app. right. by apply list_elem_of_singleton.
Qed.


Lemma bind_arguments_positional params args :
  length params = length args →
  bind_arguments params args ∅ = Returns args.
Proof.
  revert args. induction params as [|p params IH]; intros [|a args] Hlen;
    try discriminate; cbn.
  - by rewrite bool_decide_eq_true_2.
  - rewrite lookup_empty, IH; [done | by injection Hlen].
Qed.

Lemma def1_positional p f a W s : def1 p f [a] ∅ W s = f a W s.
Proof.
  unfold def1, bind, lift_outcome.
  by rewrite (bind_arguments_positional [p] [a]).
Qed.

Lemma def2_positional p1 p2 f a b W s : def2 p1 p2 f [a; b] ∅ W s = f a b W s.
Proof.
  unfold def2, bind, lift_outcome.
  by rewrite (bind_arguments_positional [p1; p2] [a; b]).
Qed.

(** ** The invocation recorder *)

Lemma start_invocation_eq name kwargs W s :
  start_invocation name kwargs W s = (Returns tt, started W s).
Proof. reflexivity. Qed.

Lemma end_invocation_eq name kwargs outputs W s :
  end_invocation name kwargs outputs W s
  = (Returns tt, recorded W name kwargs outputs s).
Proof. reflexivity. Qed.

Lemma __call___eq name func args kwargs W s :
  __call__ name func args kwargs W s
  = match func args kwargs W (started W s) with
    | (Returns v, s1) => (Returns v, recorded W name kwargs v s1)
    | (Raises e, s1) =>
        (Raises e, recorded W name kwargs (VStr ("Error: " +:+ exn_str e)) s1)
    end.
Proof.
  unfold __call__, bind, try_except. rewrite start_invocation_eq.
  destruct (func args kwargs W (started W s)) as [[v|e] s1];
    rewrite end_invocation_eq; reflexivity.
Qed.

(** C9.  The recorder runs the wrapped function once, in the state left by
    [start_invocation].  When the function returns [v], the wrapper returns
    [v] and the log is the function's log followed by one entry whose
    outputs are [v]; when it raises [e], the wrapper raises the same [e] and
    the entry's outputs are the text "Error: " followed by [str(e)]. *)
Theorem recorder_observes_and_reraises
  (name : string) (func : list pyval → gmap string pyval → M pyval)
  (args : list pyval) (kwargs : gmap string pyval) (W : World) (s : Sys) :
  let call := __call__ name func args kwargs W s in
  match func args kwargs W (started W s) with
  | (Returns v, s1) =>
      call.1 = Returns v
      ∧ ∃ entry,
          invocations (tool_monitor call.2)
          = invocations (tool_monitor s1) ++ [entry]
          ∧ tool_name entry = name ∧ outputs entry = v
          ∧ trace call.2 = trace s1
  | (Raises e, s1) =>
      call.1 = Raises e
      ∧ ∃ entry,
          invocations (tool_monitor call.2)
          = invocations (tool_monitor s1) ++ [entry]
          ∧ tool_name entry = name
          ∧ outputs entry = VStr ("Error: " +:+ exn_str e)
          ∧ trace call.2 = trace s1
  end.
Proof.
  cbv zeta. rewrite __call___eq.
  destruct (func args kwargs W (started W s)) as [[v|e] s1]; cbn;
    (split; [reflexivity | eexists; repeat split]).
Qed.

(** ** The relevance classifier *)

Lemma response_keys explanation :
  Forall (λ k, is_Some (response explanation !! k)) relevance_keys.
Proof. repeat constructor; by eexists. Qed.

Lemma response_breakdown explanation :
  ∃ b, response explanation !! "breakdown" = Some (VDict b)
       ∧ Forall (λ k, is_Some (b !! k)) breakdown_keys.
Proof. eexists. split; [reflexivity|]. repeat constructor; by eexists. Qed.

Lemma dict_update_lookup (d other : gmap string pyval) k :
  dict_update d other !! k
  = match other !! k with Some v => Some v | None => d !! k end.
Proof.
  unfold dict_update. rewrite lookup_union.
  destruct (other !! k), (d !! k); reflexivity.
Qed.

(** The undecorated classifier returns a dictionary whatever the model and
    the decoder do, after exactly one model call. *)
Lemma check_relevance__wrapped___cases question W s :
  ∃ d,
    check_relevance__wrapped__ question W s
    = (Returns (VDict d), after [asked question] s)
    ∧ match chain_invoke_answer W (trace s) RELEVANCE_CHECK_PROMPT
              {[ "question" := question ]} with
      | Raises e => d = response ("Error: " +:+ exn_str e)
      | Returns text =>
          match json_loads W text with
          | Raises e =>
              d = response (if is_JSONDecodeError e
                            then "Failed to parse response"
                            else "Error: " +:+ exn_str e)
          | Returns (VDict parsed) =>
              d = dict_update (response "No explanation provided") parsed
          | Returns _ => d = response "No explanation provided"
          end
      end.
Proof.
  unfold check_relevance__wrapped__, try_except_only, try_except, bind,
    chain_invoke, external, loads, ask, lift_outcome, asked, after; cbn.
  destruct (chain_invoke_answer W (trace s) RELEVANCE_CHECK_PROMPT _)
    as [text|e]; [|by eexists].
  destruct (json_loads W text) as [[]|e]; try (by eexists).
  destruct (is_JSONDecodeError e); by eexists.
Qed.

Lemma check_relevance_eq question W s :
  ∃ d,
    check_relevance [question] ∅ W s
    = (Returns (VDict d),
       recorded W "check_relevance" ∅ (VDict d)
         (after [asked question] (started W s)))
    ∧ check_relevance__wrapped__ question W (started W s)
      = (Returns (VDict d), after [asked question] (started W s)).
Proof.
  destruct (check_relevance__wrapped___cases question W (started W s))
    as (d & Hd & _).
  exists d. split; [|done].
  unfold check_relevance. rewrite __call___eq, def1_positional, Hd. done.
Qed.

(** C7, as the code has it.  Called with any question, the classifier
    returns (it never raises) a dictionary that has the four keys relevant,
    tables, breakdown and explanation.  When the model call fails, it is the
    default with the explanation "Error: " and the failure message.  When the
    model's text is not JSON, it is the default with the explanation
    "Failed to parse response".  When the text is JSON but not a mapping, it
    is the default with the placeholder explanation "No explanation
    provided".  When it is a mapping, each top-level key has the mapping's
    value if the mapping has the key and the default's value otherwise. *)
Theorem classifier_always_answers (question : pyval) (W : World) (s : Sys) :
  ∃ d,
    (check_relevance [question] ∅ W s).1 = Returns (VDict d)
    ∧ Forall (λ k, is_Some (d !! k)) relevance_keys
    ∧ match chain_invoke_answer W (trace s) RELEVANCE_CHECK_PROMPT
              {[ "question" := question ]} with
      | Raises e => d = response ("Error: " +:+ exn_str e)
      | Returns text =>
          match json_loads W text with
          | Raises e =>
              d = response (if is_JSONDecodeError e
                            then "Failed to parse response"
                            else "Error: " +:+ exn_str e)
          | Returns (VDict parsed) =>
              ∀ k, d !! k
                   = match parsed !! k with
                     | Some v => Some v
                     | None => response "No explanation provided" !! k
                     end
          | Returns _ => d = response "No explanation provided"
          end
      end.
Proof.
  destruct (check_relevance_eq question W s) as (d & Hcall & Hwrapped).
  destruct (check_relevance__wrapped___cases question W (started W s))
    as (d' & Hd' & Hcases).
  assert (d' = d) as -> by congruence.
  exists d. split; [by rewrite Hcall|].
  change (trace (started W s)) with (trace s) in Hcases.
  destruct (chain_invoke_answer W (trace s) RELEVANCE_CHECK_PROMPT _)
    as [text|e]; [|subst d; split; [apply response_keys | done]].
  destruct (json_loads W text) as [v|e];
    [|subst d; split; [apply response_keys | done]].
  destruct v as [| | | | | |parsed|];
    try (subst d; split; [apply response_keys | done]).
  subst d. split.
  - eapply Forall_impl; [apply (response_keys "No explanation provided")|].
    intros k Hk. rewrite dict_update_lookup. by destruct (parsed !! k).
  - intros k. apply dict_update_lookup.
Qed.

(** Where the breakdown keeps its four keys: whenever the model call fails,
    its text is not JSON, the JSON is not a mapping, or the mapping has no
    breakdown of its own. *)
Lemma classifier_default_breakdown question W s :
  ∃ d,
    (check_relevance [question] ∅ W s).1 = Returns (VDict d)
    ∧ let complete :=
        ∃ b, d !! "breakdown" = Some (VDict b)
             ∧ Forall (λ k, is_Some (b !! k)) breakdown_keys in
      match chain_invoke_answer W (trace s) RELEVANCE_CHECK_PROMPT
              {[ "question" := question ]} with
      | Raises e => complete
      | Returns text =>
          match json_loads W text with
          | Returns (VDict parsed) => parsed !! "breakdown" = None → complete
          | _ => complete
          end
      end.
Proof.
  destruct (check_relevance_eq question W s) as (d & Hcall & Hwrapped).
  destruct (check_relevance__wrapped___cases question W (started W s))
    as (d' & Hd' & Hcases).
  assert (d' = d) as -> by congruence.
  exists d. split; [by rewrite Hcall|]. cbv zeta.
  change (trace (started W s)) with (trace s) in Hcases.
  destruct (chain_invoke_answer W (trace s) RELEVANCE_CHECK_PROMPT _)
    as [text|e]; [|subst d; apply response_breakdown].
  destruct (json_loads W text) as [v|e]; [|subst d; apply response_breakdown].
  destruct v as [| | | | | |parsed|]; try (subst d; apply response_breakdown).
  intros Hnone. subst d.
  destruct (response_breakdown "No explanation provided") as (b & Hb & Hkeys).
  exists b. split; [|exact Hkeys]. by rewrite dict_update_lookup, Hnone.
Qed.

(** C7, counterexample.  The model answers the text [[]], which is JSON for
    an empty list.  The explanation returned is the placeholder of a mapping
    without an explanation; it says nothing of a parse failure, unlike the
    explanation returned for text that is not JSON. *)
Lemma classifier_list_output_not_reported :
  json_loads list_world "[]" = Returns (VList [])
  ∧ (check_relevance [VStr customers_question] ∅ list_world fresh).1
    = Returns (VDict (response "No explanation provided"))
  ∧ contains "No explanation provided" "parse" = false
  ∧ (check_relevance [VStr customers_question] ∅ prose_world fresh).1
    = Returns (VDict (response "Failed to parse response"))
  ∧ response "No explanation provided" ≠ response "Failed to parse response".
Proof.
  repeat split; try (vm_compute; reflexivity).
  intros H.
  assert (response "No explanation provided" !! "explanation"
          = response "Failed to parse response" !! "explanation") as H'
    by (by rewrite H).
  vm_compute in H'. discriminate H'.
Qed.

(** C3, at the failing input.  The model answers a mapping whose breakdown
    has the key intent only: the classifier returns that breakdown as it
    is, without the keys entities, conditions and timeframe. *)
Theorem classifier_partial_breakdown_kept :
  json_loads partial_world partial_text = Returns partial_value
  ∧ ∃ d,
      (check_relevance [VStr customers_question] ∅ partial_world fresh).1
      = Returns (VDict d)
      ∧ d !! "breakdown" = Some (VDict {[ "intent" := VStr "lookup" ]})
      ∧ ({[ "intent" := VStr "lookup" ]} : gmap string pyval) !! "entities" = None
      ∧ ({[ "intent" := VStr "lookup" ]} : gmap string pyval) !! "conditions" = None
      ∧ ({[ "intent" := VStr "lookup" ]} : gmap string pyval) !! "timeframe" = None.
Proof.
  split; [vm_compute; reflexivity|].
  exists (dict_update (response "No explanation provided")
            {[ "relevant" := VBool true;
               "breakdown" := VDict {[ "intent" := VStr "lookup" ]} ]}).
  repeat split; vm_compute; reflexivity.
Qed.

(** ** Decorated functions called with positional arguments *)

Lemma decorated1_eq name p f a W s :
  __call__ name (def1 p f) [a] ∅ W s
  = match f a W (started W s) with
    | (Returns v, s1) => (Returns v, recorded W name ∅ v s1)
    | (Raises e, s1) =>
        (Raises e, recorded W name ∅ (VStr ("Error: " +:+ exn_str e)) s1)
    end.
Proof. by rewrite __call___eq, def1_positional. Qed.

Lemma decorated2_eq name p1 p2 f a b W s :
  __call__ name (def2 p1 p2 f) [a; b] ∅ W s
  = match f a b W (started W s) with
    | (Returns v, s1) => (Returns v, recorded W name ∅ v s1)
    | (Raises e, s1) =>
        (Raises e, recorded W name ∅ (VStr ("Error: " +:+ exn_str e)) s1)
    end.
Proof. by rewrite __call___eq, def2_positional. Qed.

(** ** The query executor *)

Ltac unfold_db :=
  unfold execute_sql_query__wrapped__, get_database_schema, get_db,
    try_finally, try_except, bind, ret, raise, SessionLocal, text, db_execute,
    fetchall, db_commit, db_rollback, db_close, external, emit, lift_outcome;
  cbn -[startswith].

Ltac step H := rewrite H; cbn -[startswith].

Lemma executor_no_session query W s e :
  SessionLocal_answer W (trace s) = Raises e →
  execute_sql_query__wrapped__ query W s = (Raises e, after [EvSession] s).
Proof. intros H. unfold_db. by rewrite H. Qed.

(** A statement the database refuses: the error is caught inside the
    [with] block, so [get_db] sees a normal exit and only closes. *)
Lemma executor_statement_refused q W s e :
  SessionLocal_answer W (trace s) = Returns tt →
  execute_answer W (trace s ++ [EvSession]) q = Raises e →
  execute_sql_query__wrapped__ (VStr q) W s
  = (Returns (VDict {[ "success" := VBool false; "error" := VStr (exn_str e) ]}),
     after [EvSession; EvExecute q; EvClose] s).
Proof.
  intros H1 H2. unfold_db. step H1. step H2.
  unfold after. by rewrite <- !app_assoc.
Qed.


Lemma executor_commit q W s result :
  SessionLocal_answer W (trace s) = Returns tt →
  execute_answer W (trace s ++ [EvSession]) q = Returns result →
  first_keyword_is_select q = false →
  commit_answer W (trace s ++ [EvSession; EvExecute q]) = Returns tt →
  execute_sql_query__wrapped__ (VStr q) W s
  = (Returns (VDict {[ "success" := VBool true ]}),
     after [EvSession; EvExecute q; EvCommit; EvClose] s).
Proof.
  intros H1 H2 Hsel H3. unfold first_keyword_is_select in Hsel.
  unfold_db. step H1. step H2. step Hsel.
  rewrite <- app_assoc; cbn -[startswith]. step H3.
  unfold after. by rewrite <- !app_assoc.
Qed.

(** What the executor can answer: it raises (only when no session could be
    made), reports success, or reports a failure with its text. *)
Lemma executor_outcomes q W s :
  match (execute_sql_query__wrapped__ (VStr q) W s).1 with
  | Raises e => SessionLocal_answer W (trace s) = Raises e
  | Returns (VDict r) =>
      r !! "success" = Some (VBool true)
      ∨ ∃ error_msg, r = {[ "success" := VBool false; "error" := VStr error_msg ]}
  | Returns _ => False
  end.
Proof.
  unfold_db.
  destruct (SessionLocal_answer W (trace s)) as [[]|e]; cbn -[startswith];
    [|done].
  destruct (execute_answer W _ q) as [result|e]; cbn -[startswith];
    [|right; by eexists].
  destruct (startswith (strip (lower q)) "select"); cbn.
  - destruct (result_fetchall result); cbn; [|right; by eexists].
    destruct (result_keys result); cbn; [by left | right; by eexists].
  - destruct (commit_answer W _); cbn; [by left | right; by eexists].
Qed.

(** The schema provider keeps its [try] outside the [with] block: there a
    refused statement does reach [get_db], which rolls back. *)
Lemma schema_provider_rolls_back W s e :
  SessionLocal_answer W (trace s) = Returns tt →
  execute_answer W (trace s ++ [EvSession]) schema_query = Raises e →
  get_database_schema W s
  = (Returns ("Error: " +:+ "Error retrieving database schema: " +:+ exn_str e),
     after [EvSession; EvExecute schema_query; EvRollback; EvClose] s).
Proof.
  intros H1 H2. unfold_db. rewrite H1; cbn. rewrite H2; cbn.
  unfold after. by rewrite <- !app_assoc.
Qed.

(** A statement whose first word is select, in any letter case, passes the
    test of line 126.  (The test looks at the first six letters only.) *)
Lemma is_alpha_not_space c : is_alpha c = true → isspace c = false.
Proof. destruct c as [[] [] [] [] [] [] [] []]; vm_compute; congruence. Qed.

Lemma rstrip_keeps_leading_letters s :
  startswith (rstrip s) (leading_letters s) = true.
Proof.
  induction s as [|c s IH]; [reflexivity|]. cbn [leading_letters].
  destruct (is_alpha c) eqn:Hc; [|reflexivity].
  apply is_alpha_not_space in Hc.
  assert (rstrip (String c s) = String c (rstrip s)) as ->.
  { cbn [rstrip]. rewrite Hc. by destruct (rstrip s). }
  cbn [startswith]. by rewrite Ascii.eqb_refl.
Qed.

Lemma first_word_select_passes_test q :
  first_word q = "select" → first_keyword_is_select q = true.
Proof.
  unfold first_word, first_keyword_is_select, strip. intros <-.
  apply rstrip_keeps_leading_letters.
Qed.




(** C4, at the failing input.  The database refuses the statement: the
    executor returns the failure with the driver's text and the session is
    closed, but it is never rolled back, because the error is caught before
    it can reach [get_db].  (In [get_database_schema], whose [try] is outside
    the [with] block, the same refusal is rolled back.) *)
Theorem executor_refusal_not_rolled_back :
  let call := execute_sql_query [VStr broken_statement] ∅ syntax_error_world fresh in
  call.1 = Returns (VDict {[ "success" := VBool false; "error" := VStr driver_text ]})
  ∧ trace call.2 = [EvSession; EvExecute broken_statement; EvClose]
  ∧ (EvRollback ∉ trace call.2)
  ∧ trace (get_database_schema schema_error_world fresh).2
    = [EvSession; EvExecute schema_query; EvRollback; EvClose].
Proof.
  cbv zeta. unfold execute_sql_query. rewrite decorated1_eq.
  rewrite (executor_statement_refused broken_statement syntax_error_world
             (started syntax_error_world fresh) syntax_error eq_refl eq_refl).
  rewrite (schema_provider_rolls_back schema_error_world fresh syntax_error
             eq_refl eq_refl).
  repeat split.
  cbn. intros H. repeat (apply elem_of_cons in H as [H|H]; [discriminate H|]).
  by apply elem_of_nil in H.
Qed.

(** ** The other tools *)

Lemma get_database_schema_returns W s :
  ∃ schema s', get_database_schema W s = (Returns schema, s')
               ∧ tool_monitor s' = tool_monitor s
               ∧ clock_reads s' = clock_reads s.
Proof.
  unfold_db.
  destruct (SessionLocal_answer W (trace s)); cbn; [|by eexists _, _].
  destruct (execute_answer W _ schema_query) as [result|e]; cbn;
    [|by eexists _, _].
  destruct (result_iter result); cbn; by eexists _, _.
Qed.

(** The synthesizer returns, whatever happens: a text, or [None]. *)
Lemma convert_to_sql_returns question context W s :
  ∃ sql s', convert_to_sql [question; context] ∅ W s = (Returns sql, s')
            ∧ (sql = VNone ∨ ∃ text, sql = VStr text).
Proof.
  unfold convert_to_sql. rewrite decorated2_eq.
  unfold convert_to_sql__wrapped__, try_except, bind.
  destruct (get_database_schema_returns W (started W s)) as (schema & s1 & -> & _).
  unfold chain_invoke, external, ret.
  destruct (chain_invoke_answer W _ _ _) as [text|e]; eexists _, _; split;
    try reflexivity; eauto.
Qed.

(** The model call of the formatter (lines 157-161). *)
Lemma generate_human_readable_eq sql result W s :
  ∃ answer,
    generate_human_readable [sql; result] ∅ W s
    = (Returns (VStr answer),
       recorded W "generate_human_readable" ∅ (VStr answer)
         (after [formatted sql result] (started W s))).
Proof.
  unfold generate_human_readable. rewrite decorated2_eq.
  unfold generate_human_readable__wrapped__, try_except, bind, chain_invoke,
    external, ret; cbn.
  destruct (chain_invoke_answer W _ _ _) as [text|e]; by eexists.
Qed.

(** ** The stages of the agent *)

Lemma initial_state_lookup question :
  initial_state question !! "question" = Some (VStr question)
  ∧ initial_state question !! "query_result" = Some (VStr "")
  ∧ initial_state question !! "sql_query" = Some (VStr "")
  ∧ initial_state question !! "query_rows" = Some (VList [])
  ∧ initial_state question !! "columns" = Some (VList [])
  ∧ initial_state question !! "sql_error" = Some (VBool false).
Proof. repeat split. Qed.

Lemma classified_lookup question rr :
  classified question rr !! "question" = Some (VStr question)
  ∧ classified question rr !! "relevance_result" = Some rr
  ∧ classified question rr !! "query_result" = Some (VStr "")
  ∧ classified question rr !! "sql_query" = Some (VStr "").
Proof. repeat split. Qed.

Lemma synthesized_lookup question rr sql :
  synthesized question rr sql !! "question" = Some (VStr question)
  ∧ synthesized question rr sql !! "sql_query"
    = Some (if truthy sql then sql else VStr "")
  ∧ synthesized question rr sql !! "query_rows" = Some (VList [])
  ∧ synthesized question rr sql !! "columns" = Some (VList []).
Proof. repeat split. Qed.

Lemma _check_relevance_eq question W s rr s1 :
  check_relevance [VStr question] ∅ W s = (Returns rr, s1) →
  _check_relevance (initial_state question) W s
  = (Returns (classified question rr), s1).
Proof.
  intros H. unfold _check_relevance, try_except, bind, subscript, ret.
  destruct (initial_state_lookup question) as (-> & _). cbv beta iota.
  by rewrite H.
Qed.

Lemma next_after_check_relevance question rr W s :
  next_node node.check_relevance (classified question (VDict rr)) W s
  = (Returns (if truthy (dict_get rr "relevant" (VBool false))
              then Some node.convert_to_sql else None), s).
Proof.
  unfold next_node, bind, subscript.
  destruct (classified_lookup question (VDict rr)) as (_ & -> & _).
  reflexivity.
Qed.

Lemma _convert_to_sql_eq question rr W s sql s1 :
  convert_to_sql [VStr question; rr] ∅ W s = (Returns sql, s1) →
  _convert_to_sql (classified question rr) W s
  = (Returns (synthesized question rr sql), s1).
Proof.
  intros H. unfold _convert_to_sql, try_except, bind, subscript, ret.
  destruct (classified_lookup question rr) as (-> & -> & _). cbv beta iota.
  by rewrite H.
Qed.

Lemma invoke_from_step limit n state W s :
  invoke_from (S limit) n state W s
  = match node_action n state W s with
    | (Returns x, s1) =>
        match next_node n x W s1 with
        | (Returns None, s2) => (Returns (VDict x), s2)
        | (Returns (Some n'), s2) => invoke_from limit n' x W s2
        | (Raises e, s2) => (Raises e, s2)
        end
    | (Raises e, s1) => (Raises e, s1)
    end.
Proof.
  cbn [invoke_from]. unfold bind.
  destruct (node_action n state W s) as [[x|e] s1]; [|done].
  destruct (next_node n x W s1) as [[[n'|]|e] s2]; done.
Qed.

(** From the third stage on, the graph is a straight line. *)
Lemma invoke_from_execute_sql limit state W s :
  invoke_from (S (S limit)) node.execute_sql state W s
  = (let* x3 := _execute_sql state in
     let* x4 := _generate_human_readable x3 in
     ret (VDict x4)) W s.
Proof.
  rewrite invoke_from_step. cbn [node_action]. unfold bind at 1.
  destruct (_execute_sql state W s) as [[x3|e] s3]; [|done].
  change (next_node node.execute_sql x3 W s3)
    with (Returns (Some node.generate_human_readable), s3).
  cbv beta iota.
  rewrite invoke_from_step. cbn [node_action]. unfold bind.
  destruct (_generate_human_readable x3 W s3) as [[x4|e] s4]; done.
Qed.

(** A question classified as not relevant ends the graph at once. *)
Lemma workflow_irrelevant question W s rr s1 :
  check_relevance [VStr question] ∅ W s = (Returns (VDict rr), s1) →
  truthy (dict_get rr "relevant" (VBool false)) = false →
  _create_workflow (initial_state question) W s
  = (Returns (VDict (classified question (VDict rr))), s1).
Proof.
  intros Hc Hrel. unfold _create_workflow, recursion_limit.
  rewrite invoke_from_step. cbn [node_action].
  rewrite (_check_relevance_eq _ _ _ _ _ Hc).
  by rewrite next_after_check_relevance, Hrel.
Qed.

(** A question classified as relevant goes through the three other stages. *)
Lemma workflow_relevant question W s rr s1 sql s2 :
  check_relevance [VStr question] ∅ W s = (Returns (VDict rr), s1) →
  truthy (dict_get rr "relevant" (VBool false)) = true →
  convert_to_sql [VStr question; VDict rr] ∅ W s1 = (Returns sql, s2) →
  _create_workflow (initial_state question) W s
  = (let* x3 := _execute_sql (synthesized question (VDict rr) sql) in
     let* x4 := _generate_human_readable x3 in
     ret (VDict x4)) W s2.
Proof.
  intros Hc Hrel Hs. unfold _create_workflow, recursion_limit.
  rewrite invoke_from_step. cbn [node_action].
  rewrite (_check_relevance_eq _ _ _ _ _ Hc).
  rewrite next_after_check_relevance, Hrel.
  rewrite invoke_from_step. cbn [node_action].
  rewrite (_convert_to_sql_eq _ _ _ _ _ _ Hs).
  change (next_node node.convert_to_sql (synthesized question (VDict rr) sql) W s2)
    with (Returns (Some node.execute_sql), s2).
  cbv beta iota. apply invoke_from_execute_sql.
Qed.

Lemma _execute_sql_nothing_to_run x sql_query W s :
  x !! "sql_query" = Some sql_query →
  truthy sql_query = false →
  _execute_sql x W s
  = (Returns (<["query_result" := VStr "Failed to generate SQL query"]>
                (<["sql_error" := VBool true]> x)), s).
Proof.
  intros Hx Hempty. unfold _execute_sql, bind, subscript, ret.
  rewrite Hx. cbv beta iota. by rewrite Hempty.
Qed.

Lemma _execute_sql_failure x sql W s r s1 message :
  x !! "sql_query" = Some (VStr sql) →
  sql ≠ "" →
  execute_sql_query [VStr sql] ∅ W s = (r, s1) →
  execution_fails r message →
  _execute_sql x W s
  = (Returns (<["query_result" := VStr message]>
                (<["sql_error" := VBool true]> x)), s1).
Proof.
  intros Hx Hsql Hrun Hfails.
  unfold _execute_sql, bind, subscript, ret. rewrite Hx. cbv beta iota.
  assert (truthy (VStr sql) = true) as ->.
  { cbn. apply negb_true_iff. by apply String.eqb_neq. }
  cbn [negb]. unfold try_except. cbv beta iota.
  rewrite Hrun. by destruct Hfails.
Qed.

Lemma _generate_human_readable_eq x sql_query query_rows columns sql_error
  question W s :
  x !! "sql_query" = Some sql_query →
  x !! "query_rows" = Some query_rows →
  x !! "columns" = Some columns →
  x !! "sql_error" = Some sql_error →
  x !! "question" = Some question →
  ∃ answer s1,
    generate_human_readable
      [sql_query;
       VDict {[ "rows" := query_rows; "columns" := columns;
                "success" := VBool (negb (truthy sql_error));
                "question" := question ]}] ∅ W s
    = (Returns answer, s1)
    ∧ _generate_human_readable x W s
      = (Returns (<["query_result" := answer]> x), s1).
Proof.
  intros H1 H2 H3 H4 H5.
  destruct (generate_human_readable_eq sql_query
              (VDict {[ "rows" := query_rows; "columns" := columns;
                        "success" := VBool (negb (truthy sql_error));
                        "question" := question ]}) W s) as (answer & Hf).
  eexists _, _. split; [exact Hf|].
  unfold _generate_human_readable, try_except, bind, subscript, ret.
  rewrite H1, H2, H3, H4, H5. cbv beta iota. by rewrite Hf.
Qed.

(** ** The agent *)

Lemma run_eq self question W s :
  run self question W s
  = match workflow self (initial_state question) W s with
    | (Returns (VDict result), s1) =>
        (Returns
           (VDict
              {[ "query_result" :=
                   dict_get result "query_result" (VStr "Error processing request");
                 "relevance_result" := dict_get result "relevance_result" VNone;
                 "sql_query" := dict_get result "sql_query" VNone ]}), s1)
    | (Returns _, s1) =>
        (Returns
           (VDict {[ "query_result" := VStr "Error: Unexpected result type";
                     "relevance_result" := VNone;
                     "sql_query" := VNone ]}), s1)
    | (Raises e, s1) =>
        (Returns
           (VDict
              {[ "query_result" := VStr ("Error processing request: " +:+ exn_str e);
                 "relevance_result" := VNone;
                 "sql_query" := VNone ]}), s1)
    end.
Proof.
  unfold run, try_except, bind.
  destruct (workflow self (initial_state question) W s) as [[[]|e] s1]; done.
Qed.

Lemma result_keys_dom (a b c : pyval) :
  dom ({[ "query_result" := a; "relevance_result" := b; "sql_query" := c ]}
       : gmap string pyval)
  = {[ "query_result"; "relevance_result"; "sql_query" ]}.
Proof. rewrite !dom_insert_L, dom_singleton_L. set_solver. Qed.

(** C2.  For every agent, whatever its compiled graph does, and every
    question, [run] returns (it never raises) a dictionary whose keys are
    query_result, relevance_result and sql_query; and when the graph raises
    an exception with message [m], that dictionary is query_result =
    "Error processing request: " followed by [m], relevance_result = None,
    sql_query = None.  This holds in particular for the agent that
    [__init__] builds. *)
Theorem run_always_returns_three_keys
  (self : SQLAgent) (question : string) (W : World) (s : Sys) :
  ∃ d,
    (run self question W s).1 = Returns (VDict d)
    ∧ dom d = {[ "query_result"; "relevance_result"; "sql_query" ]}
    ∧ match (workflow self (initial_state question) W s).1 with
      | Raises e =>
          d = {[ "query_result" := VStr ("Error processing request: " +:+ exn_str e);
                 "relevance_result" := VNone;
                 "sql_query" := VNone ]}
      | Returns _ => True
      end.
Proof.
  rewrite run_eq.
  destruct (workflow self (initial_state question) W s) as [[[]|e] s1];
    eexists; (split; [reflexivity|]); (split; [apply result_keys_dom|]); done.
Qed.

(** C1, as the code has it.  When the classifier's answer [rr] to the
    question has a relevant entry that is false (or no truth), [run] returns
    query_result = the empty string, relevance_result = [rr] (which holds
    the explanation) and sql_query = the empty string, and it ends in the
    very state the classifier left: the log has one more entry, the
    classifier's, and no other stage has run. *)
Theorem irrelevant_question_ends_after_classifier
  (question : string) (W : World) (s : Sys) (rr : gmap string pyval) (s1 : Sys) :
  check_relevance [VStr question] ∅ W s = (Returns (VDict rr), s1) →
  truthy (dict_get rr "relevant" (VBool false)) = false →
  run __init__ question W s
  = (Returns (VDict {[ "query_result" := VStr "";
                       "relevance_result" := VDict rr;
                       "sql_query" := VStr "" ]}), s1)
  ∧ (∃ entry,
       invocations (tool_monitor s1) = invocations (tool_monitor s) ++ [entry]
       ∧ tool_name entry = "check_relevance")
  ∧ trace s1 = trace s ++ [asked (VStr question)].
Proof.
  intros Hc Hrel. split.
  - rewrite run_eq. cbn [workflow __init__].
    by rewrite (workflow_irrelevant _ _ _ _ _ Hc Hrel).
  - destruct (check_relevance_eq (VStr question) W s) as (d & Hd & _).
    rewrite Hd in Hc. injection Hc as _ <-. split; [by eexists|done].
Qed.

(** C1, witness: the weather question of scenario B. *)
Lemma irrelevant_question_ends_after_classifier_witness :
  run __init__ weather_question weather_world fresh
  = (Returns (VDict {[ "query_result" := VStr "";
                       "relevance_result" := weather_value;
                       "sql_query" := VStr "" ]}),
     (check_relevance [VStr weather_question] ∅ weather_world fresh).2).
Proof.
  refine (proj1 (irrelevant_question_ends_after_classifier weather_question
                   weather_world fresh (response weather_explanation) _ _ _)).
  - vm_compute. reflexivity.
  - reflexivity.
Defined.

(** C1, counterexample.  The weather question of scenario B: the classifier
    answers relevant = false with a non-empty explanation, and the
    query_result that [run] returns is the empty string, not the
    explanation. *)
Lemma irrelevant_question_gets_empty_result :
  json_loads weather_world weather_text = Returns weather_value
  ∧ (check_relevance [VStr weather_question] ∅ weather_world fresh).1
    = Returns weather_value
  ∧ dict_get (response weather_explanation) "relevant" (VBool false) = VBool false
  ∧ dict_get (response weather_explanation) "explanation" VNone
    = VStr weather_explanation
  ∧ weather_explanation ≠ ""
  ∧ ∃ d, (run __init__ weather_question weather_world fresh).1 = Returns (VDict d)
         ∧ d !! "query_result" = Some (VStr "")
         ∧ d !! "query_result" ≠ Some (VStr weather_explanation).
Proof.
  repeat split; try (vm_compute; reflexivity); try discriminate.
  exists {[ "query_result" := VStr "";
            "relevance_result" := weather_value;
            "sql_query" := VStr "" ]}.
  split; [vm_compute; reflexivity|]. split; [reflexivity|]. discriminate.
Qed.

(** C6.  The question being classified as relevant and the synthesizer
    having answered with an empty text or with None: the ExecuteSql stage
    leaves the world and the log as they are (nothing is executed), sets
    sql_error to true and query_result to "Failed to generate SQL query";
    the edge out of it leads to the GenerateResponse stage; and the run goes
    on to call the formatter (with an empty statement and a failed, empty
    result) and ends with the formatter's answer in query_result. *)
Theorem empty_synthesis_goes_on_to_formatter
  (question : string) (W : World) (s : Sys) (rr : gmap string pyval) (s1 : Sys)
  (sql : pyval) (s2 : Sys) :
  check_relevance [VStr question] ∅ W s = (Returns (VDict rr), s1) →
  truthy (dict_get rr "relevant" (VBool false)) = true →
  convert_to_sql [VStr question; VDict rr] ∅ W s1 = (Returns sql, s2) →
  truthy sql = false →
  let x2 := synthesized question (VDict rr) sql in
  let x3 := <["query_result" := VStr "Failed to generate SQL query"]>
              (<["sql_error" := VBool true]> x2) in
  _execute_sql x2 W s2 = (Returns x3, s2)
  ∧ next_node node.execute_sql x3 W s2
    = (Returns (Some node.generate_human_readable), s2)
  ∧ ∃ answer s3,
      generate_human_readable [VStr ""; failure_context question] ∅ W s2
      = (Returns answer, s3)
      ∧ _create_workflow (initial_state question) W s
        = (Returns (VDict (<["query_result" := answer]> x3)), s3).
Proof.
  intros Hc Hrel Hs Hempty x2 x3.
  assert (x2 !! "sql_query" = Some (VStr "")) as Hq.
  { unfold x2. destruct (synthesized_lookup question (VDict rr) sql)
      as (_ & -> & _). by rewrite Hempty. }
  assert (_execute_sql x2 W s2 = (Returns x3, s2)) as Hx.
  { by apply (_execute_sql_nothing_to_run x2 (VStr "")). }
  split; [exact Hx|]. split; [reflexivity|].
  destruct (_generate_human_readable_eq x3 (VStr "") (VList []) (VList [])
              (VBool true) (VStr question) W s2) as (answer & s3 & Hf & Hg);
    try reflexivity.
  { unfold x3. by rewrite !lookup_insert_ne. }
  exists answer, s3. split; [exact Hf|].
  rewrite (workflow_relevant _ _ _ _ _ _ _ Hc Hrel Hs).
  fold x2. unfold bind. rewrite Hx, Hg. done.
Qed.

(** C6, witness: the synthesizer's model call fails, so the synthesizer
    answers None. *)
Lemma empty_synthesis_goes_on_to_formatter_witness :
  ∃ answer s3,
    generate_human_readable [VStr ""; failure_context customers_question] ∅
      no_synthesis_world no_synthesis_s2
    = (Returns answer, s3)
    ∧ _create_workflow (initial_state customers_question) no_synthesis_world fresh
      = (Returns
           (VDict (<["query_result" := answer]>
                     (<["query_result" := VStr "Failed to generate SQL query"]>
                        (<["sql_error" := VBool true]>
                           (synthesized customers_question
                              customers_value_merged VNone))))), s3).
Proof.
  refine (proj2 (proj2 (empty_synthesis_goes_on_to_formatter customers_question
              no_synthesis_world fresh
              (dict_update (response "No explanation provided")
                 {[ "relevant" := VBool true;
                    "explanation" := VStr "Lists the customers table" ]})
              no_synthesis_s1 VNone no_synthesis_s2 _ _ _ _))).
  - vm_compute. reflexivity.
  - vm_compute. reflexivity.
  - vm_compute. reflexivity.
  - vm_compute. reflexivity.
Defined.

(** C5, as the code has it.  The question being classified as relevant and
    a non-empty statement synthesized: when its execution fails (the
    executor reports the driver's text, or raises), the ExecuteSql stage
    sets sql_error to true and query_result to the failure message; the
    formatter is then called with the statement and with rows = [],
    columns = [], success = false and the question, and with nothing else;
    and the final state has sql_error = true, empty query_rows and columns,
    and the formatter's answer as query_result. *)
Theorem failed_execution_reaches_formatter
  (question : string) (W : World) (s : Sys) (rr : gmap string pyval) (s1 : Sys)
  (sql : string) (s2 : Sys) (r : outcome pyval) (s3 : Sys) (message : string) :
  check_relevance [VStr question] ∅ W s = (Returns (VDict rr), s1) →
  truthy (dict_get rr "relevant" (VBool false)) = true →
  convert_to_sql [VStr question; VDict rr] ∅ W s1 = (Returns (VStr sql), s2) →
  sql ≠ "" →
  execute_sql_query [VStr sql] ∅ W s2 = (r, s3) →
  execution_fails r message →
  let x2 := synthesized question (VDict rr) (VStr sql) in
  let x3 := <["query_result" := VStr message]> (<["sql_error" := VBool true]> x2) in
  _execute_sql x2 W s2 = (Returns x3, s3)
  ∧ ∃ answer s4,
      generate_human_readable [VStr sql; failure_context question] ∅ W s3
      = (Returns answer, s4)
      ∧ ∃ final,
          _create_workflow (initial_state question) W s = (Returns (VDict final), s4)
          ∧ final = <["query_result" := answer]> x3
          ∧ final !! "sql_error" = Some (VBool true)
          ∧ final !! "query_rows" = Some (VList [])
          ∧ final !! "columns" = Some (VList []).
Proof.
  intros Hc Hrel Hs Hsql Hrun Hfails x2 x3.
  assert (truthy (VStr sql) = true) as Htrue.
  { cbn. apply negb_true_iff. by apply String.eqb_neq. }
  assert (x2 !! "sql_query" = Some (VStr sql)) as Hq.
  { unfold x2. destruct (synthesized_lookup question (VDict rr) (VStr sql))
      as (_ & -> & _). by rewrite Htrue. }
  assert (_execute_sql x2 W s2 = (Returns x3, s3)) as Hx.
  { by apply (_execute_sql_failure x2 sql W s2 r). }
  split; [exact Hx|].
  destruct (_generate_human_readable_eq x3 (VStr sql) (VList []) (VList [])
              (VBool true) (VStr question) W s3) as (answer & s4 & Hf & Hg);
    try reflexivity.
  { unfold x3. by rewrite !lookup_insert_ne. }
  exists answer, s4. split; [exact Hf|].
  exists (<["query_result" := answer]> x3). split.
  - rewrite (workflow_relevant _ _ _ _ _ _ _ Hc Hrel Hs).
    fold x2. unfold bind. by rewrite Hx, Hg.
  - repeat split.
Qed.

(** C5, witness: the database refuses the synthesized statement. *)
Lemma failed_execution_reaches_formatter_witness :
  ∃ answer s4,
    generate_human_readable [VStr broken_statement;
                             failure_context customers_question] ∅
      syntax_error_world syntax_error_s3
    = (Returns answer, s4)
    ∧ ∃ final,
        _create_workflow (initial_state customers_question) syntax_error_world fresh
        = (Returns (VDict final), s4)
        ∧ final
          = <["query_result" := answer]>
              (<["query_result" := VStr ("Error: " +:+ driver_text)]>
                 (<["sql_error" := VBool true]>
                    (synthesized customers_question customers_value_merged
                       (VStr broken_statement))))
        ∧ final !! "sql_error" = Some (VBool true)
        ∧ final !! "query_rows" = Some (VList [])
        ∧ final !! "columns" = Some (VList []).
Proof.
  refine (proj2 (failed_execution_reaches_formatter customers_question
                   syntax_error_world fresh
                   (dict_update (response "No explanation provided")
                      {[ "relevant" := VBool true;
                         "explanation" := VStr "Lists the customers table" ]})
                   syntax_error_s1 broken_statement syntax_error_s2
                   (Returns (VDict {[ "success" := VBool false;
                                      "error" := VStr driver_text ]}))
                   syntax_error_s3 ("Error: " +:+ driver_text) _ _ _ _ _ _)).
  - vm_compute. reflexivity.
  - vm_compute. reflexivity.
  - vm_compute. reflexivity.
  - discriminate.
  - vm_compute. reflexivity.
  - apply fails_reported.
Defined.

(** C5, counterexample.  The synthesized statement is refused with the
    driver's text [driver_text].  The formatter is called once, with the
    statement and with rows = [], columns = [], success = false and the
    question; the driver's text occurs in neither of the two strings it is
    given, and the answer it gives becomes the query_result. *)
Lemma failure_text_not_passed_to_formatter :
  (execute_sql_query [VStr broken_statement] ∅ syntax_error_world
     syntax_error_s2).1
  = Returns (VDict {[ "success" := VBool false; "error" := VStr driver_text ]})
  ∧ formatter_calls
      (trace (run __init__ customers_question syntax_error_world fresh).2)
    = [ {[ "sql" := VStr broken_statement;
           "result" := VDict {[ "rows" := VList [];
                                "columns" := VList [];
                                "success" := VBool false;
                                "question" := VStr customers_question ]} ]} ]
  ∧ contains broken_statement driver_text = false
  ∧ contains customers_question driver_text = false
  ∧ (run __init__ customers_question syntax_error_world fresh).1
    = Returns (VDict {[ "query_result" := VStr apology;
                        "relevance_result" := customers_value_merged;
                        "sql_query" := VStr broken_statement ]}).
Proof. repeat split; vm_compute; reflexivity. Qed.

(** ** What a run adds to the log *)

Section Log.
Context (P : ToolInvocation → Prop).

Lemma log_grows_same s s' :
  invocations (tool_monitor s') = invocations (tool_monitor s) →
  log_grows P s s'.
Proof. intros H. exists []. by rewrite H, app_nil_r. Qed.

Lemma log_grows_trans s1 s2 s3 :
  log_grows P s1 s2 → log_grows P s2 s3 → log_grows P s1 s3.
Proof.
  intros (l1 & H1 & HP1) (l2 & H2 & HP2). exists (l1 ++ l2). split.
  - by rewrite H2, H1, app_assoc.
  - by apply Forall_app.
Qed.

Lemma logs_only_ret {A} (a : A) : logs_only P (ret a).
Proof. intros W s. by apply log_grows_same. Qed.

Lemma logs_only_raise {A} e : logs_only P (@raise A e).
Proof. intros W s. by apply log_grows_same. Qed.

Lemma logs_only_lift_outcome {A} (o : outcome A) : logs_only P (lift_outcome o).
Proof. intros W s. by apply log_grows_same. Qed.

Lemma logs_only_ask : logs_only P ask.
Proof. intros W s. by apply log_grows_same. Qed.

Lemma logs_only_external {A} ev (answer : World → list event → outcome A) :
  logs_only P (external ev answer).
Proof. intros W s. by apply log_grows_same. Qed.

Lemma logs_only_emit ev : logs_only P (emit ev).
Proof. intros W s. by apply log_grows_same. Qed.

Lemma logs_only_bind {A B} (m : M A) (k : A → M B) :
  logs_only P m → (∀ a, logs_only P (k a)) → logs_only P (bind m k).
Proof.
  intros Hm Hk W s. unfold bind. specialize (Hm W s).
  destruct (m W s) as [[a|e] s1]; [|exact Hm].
  eapply log_grows_trans; [exact Hm | apply Hk].
Qed.

Lemma logs_only_try_except {A} (m : M A) h :
  logs_only P m → (∀ e, logs_only P (h e)) → logs_only P (try_except m h).
Proof.
  intros Hm Hh W s. unfold try_except. specialize (Hm W s).
  destruct (m W s) as [[a|e] s1]; [exact Hm|].
  eapply log_grows_trans; [exact Hm | apply Hh].
Qed.

Lemma logs_only_try_finally {A} (m : M A) cleanup :
  logs_only P m → logs_only P cleanup → logs_only P (try_finally m cleanup).
Proof.
  intros Hm Hc W s. unfold try_finally. specialize (Hm W s).
  destruct (m W s) as [r s1]. specialize (Hc W s1).
  destruct (cleanup W s1) as [[[]|e] s2];
    eapply log_grows_trans; [exact Hm | exact Hc | exact Hm | exact Hc].
Qed.

Lemma logs_only_subscript d k : logs_only P (subscript d k).
Proof.
  unfold subscript. destruct (d !! k); [apply logs_only_ret | apply logs_only_raise].
Qed.

Lemma logs_only_py_get v k default : logs_only P (py_get v k default).
Proof. destruct v; first [apply logs_only_ret | apply logs_only_raise]. Qed.

Lemma logs_only_py_str v : logs_only P (py_str v).
Proof. intros W s. destruct v; by apply log_grows_same. Qed.

(** The decorator adds the entries of the function, then one of its own. *)
Lemma logs_only___call__ name func args kwargs :
  (∀ entry, tool_name entry = name → inputs entry = kwargs → P entry) →
  logs_only P (func args kwargs) →
  logs_only P (__call__ name func args kwargs).
Proof.
  intros HP Hf W s. rewrite __call___eq. specialize (Hf W (started W s)).
  destruct (func args kwargs W (started W s)) as [[v|e] s1];
    destruct Hf as (l & Hl & HPl); cbn in Hl;
    (eexists (l ++ [_]); split;
     [cbn; rewrite Hl; by rewrite app_assoc
     | apply Forall_app; split; [exact HPl | by repeat constructor; apply HP]]).
Qed.

Lemma logs_only_def1 p f args kwargs :
  (∀ a, logs_only P (f a)) → logs_only P (def1 p f args kwargs).
Proof.
  intros Hf. apply logs_only_bind; [apply logs_only_lift_outcome|].
  intros [|a [|b l]]; first [apply Hf | apply logs_only_raise].
Qed.

Lemma logs_only_def2 p1 p2 f args kwargs :
  (∀ a b, logs_only P (f a b)) → logs_only P (def2 p1 p2 f args kwargs).
Proof.
  intros Hf. apply logs_only_bind; [apply logs_only_lift_outcome|].
  intros [|a [|b [|c l]]]; first [apply Hf | apply logs_only_raise].
Qed.

Ltac logs :=
  repeat first
    [ assumption
    | apply logs_only_ret | apply logs_only_raise | apply logs_only_lift_outcome
    | apply logs_only_ask | apply logs_only_external | apply logs_only_emit
    | apply logs_only_subscript | apply logs_only_py_get | apply logs_only_py_str
    | apply logs_only_bind; [|intros ?]
    | apply logs_only_try_except; [|intros ?]
    | apply logs_only_try_finally
    | match goal with
      | |- logs_only _ (match ?x with _ => _ end) => destruct x
      end ].

Lemma logs_only_get_db {A} (body : M A) :
  logs_only P body → logs_only P (get_db body).
Proof. intros Hb. unfold get_db, SessionLocal, db_rollback, db_close. logs. Qed.

Lemma logs_only_get_database_schema : logs_only P get_database_schema.
Proof.
  unfold get_database_schema. apply logs_only_try_except; [|intros ?; logs].
  apply logs_only_get_db. unfold db_execute. logs.
Qed.

Lemma logs_only_check_relevance__wrapped__ question :
  logs_only P (check_relevance__wrapped__ question).
Proof.
  unfold check_relevance__wrapped__, try_except_only, chain_invoke, loads. logs.
Qed.

Lemma logs_only_convert_to_sql__wrapped__ question context :
  logs_only P (convert_to_sql__wrapped__ question context).
Proof.
  unfold convert_to_sql__wrapped__, chain_invoke.
  apply logs_only_try_except; [|intros ?; logs].
  apply logs_only_bind; [apply logs_only_get_database_schema|]. intros ?. logs.
Qed.

Lemma logs_only_execute_sql_query__wrapped__ query :
  logs_only P (execute_sql_query__wrapped__ query).
Proof.
  unfold execute_sql_query__wrapped__. apply logs_only_get_db.
  unfold text, db_execute, fetchall, db_commit. logs.
Qed.

Lemma logs_only_generate_human_readable__wrapped__ sql result :
  logs_only P (generate_human_readable__wrapped__ sql result).
Proof. unfold generate_human_readable__wrapped__, chain_invoke. logs. Qed.

Hypothesis positional : ∀ entry, inputs entry = ∅ → P entry.

Lemma logs_only_check_relevance args :
  logs_only P (check_relevance args ∅).
Proof.
  apply logs_only___call__; [auto|]. apply logs_only_def1.
  apply logs_only_check_relevance__wrapped__.
Qed.

Lemma logs_only_convert_to_sql args :
  logs_only P (convert_to_sql args ∅).
Proof.
  apply logs_only___call__; [auto|]. apply logs_only_def2.
  apply logs_only_convert_to_sql__wrapped__.
Qed.

Lemma logs_only_execute_sql_query args :
  logs_only P (execute_sql_query args ∅).
Proof.
  apply logs_only___call__; [auto|]. apply logs_only_def1.
  apply logs_only_execute_sql_query__wrapped__.
Qed.

Lemma logs_only_generate_human_readable args :
  logs_only P (generate_human_readable args ∅).
Proof.
  apply logs_only___call__; [auto|]. apply logs_only_def2.
  apply logs_only_generate_human_readable__wrapped__.
Qed.

Lemma logs_only_node_action n state : logs_only P (node_action n state).
Proof.
  destruct n; cbn [node_action].
  - unfold _check_relevance.
    apply logs_only_try_except; [|intros ?; logs].
    apply logs_only_bind; [logs|]. intros ?.
    apply logs_only_bind; [apply logs_only_check_relevance|]. intros ?. logs.
  - unfold _convert_to_sql.
    apply logs_only_try_except; [|intros ?; logs].
    do 2 (apply logs_only_bind; [logs|]; intros ?).
    apply logs_only_bind; [apply logs_only_convert_to_sql|]. intros ?. logs.
  - unfold _execute_sql.
    apply logs_only_bind; [logs|]. intros sql_query.
    destruct (negb (truthy sql_query)); [logs|].
    apply logs_only_try_except; [|intros ?; logs].
    apply logs_only_bind; [logs|]. intros ?.
    apply logs_only_bind; [apply logs_only_execute_sql_query|]. intros ?.
    apply logs_only_bind; [logs|]. intros success.
    destruct (negb (truthy success)); logs.
  - unfold _generate_human_readable.
    apply logs_only_try_except; [|intros ?; logs].
    do 5 (apply logs_only_bind; [logs|]; intros ?).
    apply logs_only_bind; [apply logs_only_generate_human_readable|].
    intros ?. logs.
Qed.

Lemma logs_only_next_node n x : logs_only P (next_node n x).
Proof. destruct n; cbn [next_node]; logs. Qed.

Lemma logs_only_invoke_from limit n state :
  logs_only P (invoke_from limit n state).
Proof.
  revert n state. induction limit as [|limit IH]; intros n state;
    cbn [invoke_from]; [apply logs_only_raise|].
  apply logs_only_bind; [apply logs_only_node_action|]. intros x.
  apply logs_only_bind; [apply logs_only_next_node|]. intros [n'|];
    [apply IH | apply logs_only_ret].
Qed.

Lemma logs_only_run question : logs_only P (run __init__ question).
Proof.
  unfold run. apply logs_only_try_except; [|intros ?; logs].
  apply logs_only_bind; [apply logs_only_invoke_from|]. intros ?. logs.
Qed.

End Log.

(** C10.  The entry the recorder appends has the keyword arguments of the
    call as its inputs, whatever the positional arguments are; and every
    entry that a run of the agent adds to the log, on any question and in
    any world, has an empty inputs mapping, the stages being called with
    positional arguments only. *)
Theorem recorded_inputs_are_the_keywords_only :
  (∀ name func args kwargs W s,
     ∃ entry,
       last (invocations (tool_monitor (__call__ name func args kwargs W s).2))
       = Some entry
       ∧ inputs entry = kwargs)
  ∧ (∀ question W s,
       ∃ entries,
         invocations (tool_monitor (run __init__ question W s).2)
         = invocations (tool_monitor s) ++ entries
         ∧ Forall (λ entry, inputs entry = ∅) entries).
Proof.
  split.
  - intros name func args kwargs W s. rewrite __call___eq.
    destruct (func args kwargs W (started W s)) as [[v|e] s1]; cbn;
      rewrite last_snoc; by eexists.
  - intros question W s.
    by apply (logs_only_run (λ entry, inputs entry = ∅)).
Qed.

(* ===================================================================== *)
(** * Further properties of the code *)
(* ===================================================================== *)

(** ** Computations that leave the recorder and the clock alone *)

Lemma quiet_ret {A} (a : A) : quiet (ret a).
Proof. by intros W s. Qed.

Lemma quiet_raise {A} e : quiet (@raise A e).
Proof. by intros W s. Qed.

Lemma quiet_lift_outcome {A} (o : outcome A) : quiet (lift_outcome o).
Proof. by intros W s. Qed.

Lemma quiet_ask : quiet ask.
Proof. by intros W s. Qed.

Lemma quiet_external {A} ev (answer : World → list event → outcome A) :
  quiet (external ev answer).
Proof. by intros W s. Qed.

Lemma quiet_emit ev : quiet (emit ev).
Proof. by intros W s. Qed.

Lemma quiet_bind {A B} (m : M A) (k : A → M B) :
  quiet m → (∀ a, quiet (k a)) → quiet (bind m k).
Proof.
  intros Hm Hk W s. unfold bind. specialize (Hm W s).
  destruct (m W s) as [[a|e] s1]; [|exact Hm].
  destruct (Hk a W s1) as [H1 H2]. destruct Hm as [H3 H4]. cbn in *.
  split; congruence.
Qed.

Lemma quiet_try_except {A} (m : M A) h :
  quiet m → (∀ e, quiet (h e)) → quiet (try_except m h).
Proof.
  intros Hm Hh W s. unfold try_except. specialize (Hm W s).
  destruct (m W s) as [[a|e] s1]; [exact Hm|].
  destruct (Hh e W s1) as [H1 H2]. destruct Hm as [H3 H4]. cbn in *.
  split; congruence.
Qed.

Lemma quiet_try_finally {A} (m : M A) cleanup :
  quiet m → quiet cleanup → quiet (try_finally m cleanup).
Proof.
  intros Hm Hc W s. unfold try_finally. specialize (Hm W s).
  destruct (m W s) as [r s1]. specialize (Hc W s1).
  destruct Hm as [H3 H4], Hc as [H1 H2].
  destruct (cleanup W s1) as [[[]|e] s2]; cbn in *; split; congruence.
Qed.

Lemma quiet_subscript d k : quiet (subscript d k).
Proof. unfold subscript. destruct (d !! k); [apply quiet_ret | apply quiet_raise]. Qed.

Lemma quiet_py_get v k default : quiet (py_get v k default).
Proof. destruct v; first [apply quiet_ret | apply quiet_raise]. Qed.

Lemma quiet_py_str v : quiet (py_str v).
Proof. by intros W s; destruct v. Qed.

Ltac quiet_steps :=
  repeat first
    [ assumption
    | apply quiet_ret | apply quiet_raise | apply quiet_lift_outcome
    | apply quiet_ask | apply quiet_external | apply quiet_emit
    | apply quiet_subscript | apply quiet_py_get | apply quiet_py_str
    | apply quiet_bind; [|intros ?]
    | apply quiet_try_except; [|intros ?]
    | apply quiet_try_finally
    | match goal with
      | |- quiet (match ?x with _ => _ end) => destruct x
      end ].

Lemma quiet_get_db {A} (body : M A) : quiet body → quiet (get_db body).
Proof. intros Hb. unfold get_db, SessionLocal, db_rollback, db_close. quiet_steps. Qed.

Lemma quiet_get_database_schema : quiet get_database_schema.
Proof.
  unfold get_database_schema. apply quiet_try_except; [|intros ?; quiet_steps].
  apply quiet_get_db. unfold db_execute. quiet_steps.
Qed.

Lemma quiet_check_relevance__wrapped__ question :
  quiet (check_relevance__wrapped__ question).
Proof.
  unfold check_relevance__wrapped__, try_except_only, chain_invoke, loads.
  quiet_steps.
Qed.

Lemma quiet_convert_to_sql__wrapped__ question context :
  quiet (convert_to_sql__wrapped__ question context).
Proof.
  unfold convert_to_sql__wrapped__, chain_invoke.
  apply quiet_try_except; [|intros ?; quiet_steps].
  apply quiet_bind; [apply quiet_get_database_schema|]. intros ?. quiet_steps.
Qed.

Lemma quiet_execute_sql_query__wrapped__ query :
  quiet (execute_sql_query__wrapped__ query).
Proof.
  unfold execute_sql_query__wrapped__. apply quiet_get_db.
  unfold text, db_execute, fetchall, db_commit. quiet_steps.
Qed.

Lemma quiet_generate_human_readable__wrapped__ sql result :
  quiet (generate_human_readable__wrapped__ sql result).
Proof. unfold generate_human_readable__wrapped__, chain_invoke. quiet_steps. Qed.

Lemma quiet_def1 p f args kwargs :
  (∀ a, quiet (f a)) → quiet (def1 p f args kwargs).
Proof.
  intros Hf. apply quiet_bind; [apply quiet_lift_outcome|].
  intros [|a [|b l]]; first [apply Hf | apply quiet_raise].
Qed.

Lemma quiet_def2 p1 p2 f args kwargs :
  (∀ a b, quiet (f a b)) → quiet (def2 p1 p2 f args kwargs).
Proof.
  intros Hf. apply quiet_bind; [apply quiet_lift_outcome|].
  intros [|a [|b [|c l]]]; first [apply Hf | apply quiet_raise].
Qed.

(** ** The recorder: one entry per call, timed by two clock readings *)

(** The entry a call adds when the wrapped function is quiet. *)
Lemma decorated_quiet name func args kwargs W s :
  quiet (func args kwargs) →
  ∃ r s1,
    func args kwargs W (started W s) = (r, s1)
    ∧ __call__ name func args kwargs W s
      = (r, {| tool_monitor :=
                 {| invocations :=
                      invocations (tool_monitor s)
                      ++ [ {| tool_name := name; inputs := kwargs;
                              outputs := outputs_of r;
                              timestamp := clock W (clock_reads s);
                              duration := (clock W (S (clock_reads s))
                                           - clock W (clock_reads s))%float |} ];
                    _start_time := clock W (clock_reads s) |};
               clock_reads := S (S (clock_reads s));
               trace := trace s1 |}).
Proof.
  intros Hq. destruct (Hq W (started W s)) as [Htm Hclock].
  rewrite __call___eq.
  destruct (func args kwargs W (started W s)) as [r s1]. cbn in Htm, Hclock.
  exists r, s1. split; [done|].
  destruct r as [v|e]; unfold recorded; rewrite Htm, Hclock; reflexivity.
Qed.

Lemma decorated_names name func args kwargs W s :
  quiet (func args kwargs) →
  names (__call__ name func args kwargs W s).2 = names s ++ [name].
Proof.
  intros Hq. destruct (decorated_quiet name func args kwargs W s Hq)
    as (r & s1 & _ & ->).
  unfold names; cbn. by rewrite fmap_app.
Qed.

(** X1.  Each of the four tools, called with any arguments, takes exactly
    two clock readings and adds exactly one entry to the log: its timestamp
    is the reading taken when the call started, and its duration is the
    reading taken when it ended minus that one. *)
Theorem tool_entry_is_timed_by_two_readings
  (args : list pyval) (kwargs : gmap string pyval) (W : World) (s : Sys) :
  Forall
    (λ tool : string * (list pyval → gmap string pyval → M pyval),
       let s' := (tool.2 args kwargs W s).2 in
       clock_reads s' = S (S (clock_reads s))
       ∧ ∃ out,
           invocations (tool_monitor s')
           = invocations (tool_monitor s)
             ++ [ {| tool_name := tool.1; inputs := kwargs; outputs := out;
                     timestamp := clock W (clock_reads s);
                     duration := (clock W (S (clock_reads s))
                                  - clock W (clock_reads s))%float |} ])
    [ ("check_relevance", check_relevance);
      ("convert_to_sql", convert_to_sql);
      ("execute_sql_query", execute_sql_query);
      ("generate_human_readable", generate_human_readable) ].
Proof.
  assert (∀ name func,
            quiet (func args kwargs) →
            let s' := (__call__ name func args kwargs W s).2 in
            clock_reads s' = S (S (clock_reads s))
            ∧ ∃ out,
                invocations (tool_monitor s')
                = invocations (tool_monitor s)
                  ++ [ {| tool_name := name; inputs := kwargs; outputs := out;
                          timestamp := clock W (clock_reads s);
                          duration := (clock W (S (clock_reads s))
                                       - clock W (clock_reads s))%float |} ])
    as Htimed.
  { intros name func Hq.
    destruct (decorated_quiet name func args kwargs W s Hq)
      as (r & s1 & _ & Hcall).
    cbv zeta. rewrite Hcall. split; [reflexivity | by eexists]. }
  repeat apply Forall_cons_2; [..|apply Forall_nil_2]; apply Htimed.
  - apply quiet_def1, quiet_check_relevance__wrapped__.
  - apply quiet_def2, quiet_convert_to_sql__wrapped__.
  - apply quiet_def1, quiet_execute_sql_query__wrapped__.
  - apply quiet_def2, quiet_generate_human_readable__wrapped__.
Qed.

(** X2.  The recorder keeps one start time for all calls.  When a decorated
    function is called from inside another decorated function, the outer
    call's entry comes after the inner one's and carries the inner call's
    start time: its timestamp is the second clock reading of the outer call,
    not the first, and its duration is counted from there. *)
Theorem nested_call_loses_its_start_time
  (outer inner : string) (func : list pyval → gmap string pyval → M pyval)
  (args : list pyval) (kwargs : gmap string pyval) (W : World) (s : Sys) :
  quiet (func args kwargs) →
  ∃ out1 out2,
    invocations
      (tool_monitor (__call__ outer (__call__ inner func) args kwargs W s).2)
    = invocations (tool_monitor s)
      ++ [ {| tool_name := inner; inputs := kwargs; outputs := out1;
              timestamp := clock W (S (clock_reads s));
              duration := (clock W (S (S (clock_reads s)))
                           - clock W (S (clock_reads s)))%float |};
           {| tool_name := outer; inputs := kwargs; outputs := out2;
              timestamp := clock W (S (clock_reads s));
              duration := (clock W (S (S (S (clock_reads s))))
                           - clock W (S (clock_reads s)))%float |} ].
Proof.
  intros Hq. rewrite __call___eq.
  destruct (decorated_quiet inner func args kwargs W (started W s) Hq)
    as (r & s1 & _ & ->).
  destruct r as [v|e]; cbn; rewrite <- app_assoc; by eexists _, _.
Qed.

(** X2, witness: the classifier, itself decorated, wrapped once more. *)
Lemma nested_call_loses_its_start_time_witness :
  ∃ out1 out2,
    invocations
      (tool_monitor
         (__call__ "answer" check_relevance [VStr customers_question] ∅
            list_world fresh).2)
    = [ {| tool_name := "check_relevance"; inputs := ∅; outputs := out1;
           timestamp := clock list_world 1;
           duration := (clock list_world 2 - clock list_world 1)%float |};
        {| tool_name := "answer"; inputs := ∅; outputs := out2;
           timestamp := clock list_world 1;
           duration := (clock list_world 3 - clock list_world 1)%float |} ].
Proof.
  exact (nested_call_loses_its_start_time "answer" "check_relevance"
           (def1 "question" check_relevance__wrapped__)
           [VStr customers_question] ∅ list_world fresh
           (quiet_def1 _ _ _ _ quiet_check_relevance__wrapped__)).
Defined.

(** ** The states of a run *)

Ltac in_list :=
  repeat first [apply list_elem_of_here | apply list_elem_of_further].

Ltac cases_of H :=
  repeat (apply elem_of_cons in H; destruct H as [->|H]);
  try (apply elem_of_nil in H; destruct H).

Lemma initial_pipeline_state question :
  pipeline_state question (initial_state question).
Proof. repeat split; by eexists. Qed.

Lemma pipeline_state_key question x k :
  pipeline_state question x →
  k ∈ ["question"; "relevance_result"; "sql_query"; "query_result";
       "query_rows"; "columns"; "attempts"; "sql_error"] →
  is_Some (x !! k).
Proof.
  intros (Hdom & _) Hk. apply elem_of_dom. rewrite Hdom. apply elem_of_dom.
  cases_of Hk; by eexists.
Qed.

(** Writing a field other than question and attempts keeps the state a
    pipeline state, provided sql_query and query_result stay strings. *)
Lemma pipeline_state_insert question x k v :
  pipeline_state question x →
  k ∈ ["relevance_result"; "sql_query"; "query_result"; "query_rows";
       "columns"; "sql_error"] →
  (k = "sql_query" ∨ k = "query_result" → ∃ text, v = VStr text) →
  pipeline_state question (<[k := v]> x).
Proof.
  intros Hx Hk Hv.
  assert (is_Some (x !! k)) as Hsome.
  { apply (pipeline_state_key question x k Hx). cases_of Hk; in_list. }
  assert (k ≠ "question" ∧ k ≠ "attempts") as [Hq Ha].
  { cases_of Hk; by split. }
  destruct Hx as (Hdom & Hquestion & Hattempts & Hsql & Hres).
  split; [by rewrite dom_insert_lookup_L|].
  split; [by rewrite lookup_insert_ne|].
  split; [by rewrite lookup_insert_ne|].
  split.
  - destruct (decide (k = "sql_query")) as [->|Hne].
    + rewrite lookup_insert_eq. destruct Hv as [text ->]; eauto.
    + by rewrite lookup_insert_ne.
  - destruct (decide (k = "query_result")) as [->|Hne].
    + rewrite lookup_insert_eq. destruct Hv as [text ->]; eauto.
    + by rewrite lookup_insert_ne.
Qed.

Ltac pipeline_state_inserts :=
  repeat (apply pipeline_state_insert;
          [ | solve [in_list]
            | solve [ by intros [?|?]
                    | intros _; by eexists ] ]);
  try assumption.

Lemma _check_relevance_on question x W s :
  pipeline_state question x →
  ∃ d s',
    check_relevance [VStr question] ∅ W s = (Returns (VDict d), s')
    ∧ _check_relevance x W s
      = (Returns (<["relevance_result" := VDict d]> x), s')
    ∧ names s' = names s ++ ["check_relevance"].
Proof.
  intros (_ & Hq & _).
  destruct (check_relevance_eq (VStr question) W s) as (d & Hc & _).
  exists d. eexists. split; [exact Hc|]. split.
  - unfold _check_relevance, try_except, bind, subscript, ret.
    rewrite Hq. cbv beta iota. by rewrite Hc.
  - change (recorded W "check_relevance" ∅ (VDict d)
              (after [asked (VStr question)] (started W s)))
      with (Returns (VDict d),
            recorded W "check_relevance" ∅ (VDict d)
              (after [asked (VStr question)] (started W s))).2.
    rewrite <- Hc. apply decorated_names.
    apply quiet_def1, quiet_check_relevance__wrapped__.
Qed.

Lemma _convert_to_sql_on question x rr W s :
  pipeline_state question x →
  x !! "relevance_result" = Some rr →
  ∃ sql s',
    convert_to_sql [VStr question; rr] ∅ W s = (Returns sql, s')
    ∧ (sql = VNone ∨ ∃ text, sql = VStr text)
    ∧ _convert_to_sql x W s
      = (Returns (<["sql_error" := VBool (negb (truthy sql))]>
                    (<["sql_query" := if truthy sql then sql else VStr ""]> x)),
         s')
    ∧ names s' = names s ++ ["convert_to_sql"].
Proof.
  intros (_ & Hq & _) Hrr.
  destruct (convert_to_sql_returns (VStr question) rr W s)
    as (sql & s' & Hc & Hsql).
  exists sql, s'. split; [exact Hc|]. split; [exact Hsql|]. split.
  - unfold _convert_to_sql, try_except, bind, subscript, ret.
    rewrite Hq, Hrr. cbv beta iota. by rewrite Hc.
  - change s' with (Returns sql, s').2. rewrite <- Hc.
    apply decorated_names. apply quiet_def2, quiet_convert_to_sql__wrapped__.
Qed.

Lemma _execute_sql_on question x W s :
  pipeline_state question x →
  ∃ x' s',
    _execute_sql x W s = (Returns x', s')
    ∧ pipeline_state question x'
    ∧ x' !! "relevance_result" = x !! "relevance_result"
    ∧ x' !! "sql_query" = x !! "sql_query"
    ∧ names s'
      = names s ++ match x !! "sql_query" with
                   | Some (VStr EmptyString) => []
                   | _ => ["execute_sql_query"]
                   end.
Proof.
  intros Hx. destruct Hx as (Hdom & Hq & Ha & [text Hsql] & Hres).
  assert (pipeline_state question x) as Hx by (repeat split; eauto).
  destruct (decide (text = "")) as [->|Hne].
  - rewrite (_execute_sql_nothing_to_run x (VStr "") W s Hsql eq_refl).
    eexists _, _. split; [reflexivity|].
    split; [pipeline_state_inserts|].
    rewrite !lookup_insert_ne by done.
    rewrite Hsql. by rewrite app_nil_r.
  - assert (truthy (VStr text) = true) as Htrue.
    { cbn. apply negb_true_iff. by apply String.eqb_neq. }
    assert (names (execute_sql_query [VStr text] ∅ W s).2
            = names s ++ ["execute_sql_query"]) as Hnames.
    { apply decorated_names.
      apply quiet_def1, quiet_execute_sql_query__wrapped__. }
    assert (match x !! "sql_query" with
            | Some (VStr EmptyString) => []
            | _ => ["execute_sql_query"]
            end = ["execute_sql_query"]) as ->.
    { rewrite Hsql. by destruct text. }
    unfold _execute_sql, bind, subscript, ret. rewrite Hsql. cbv beta iota.
    rewrite Htrue. cbn [negb]. unfold try_except. cbv beta iota.
    destruct (execute_sql_query [VStr text] ∅ W s) as [[r|e] s1];
      cbn [snd] in Hnames.
    + destruct r as [| | | | | |r|];
        try (eexists _, _; split; [reflexivity|];
             split; [pipeline_state_inserts|];
             by rewrite !lookup_insert_ne by done).
      unfold py_get, py_str, bind, ret, ask. cbv beta iota.
      destruct (truthy (dict_get r "success" VNone)); cbn [negb];
        cbv beta iota.
      * eexists _, _; split; [reflexivity|].
        split; [pipeline_state_inserts|].
        by rewrite !lookup_insert_ne by done.
      * destruct (dict_get r "error" _); cbv beta iota;
          (eexists _, _; split; [reflexivity|];
           split; [pipeline_state_inserts|];
           by rewrite !lookup_insert_ne by done).
    + eexists _, _; split; [reflexivity|].
      split; [pipeline_state_inserts|].
      by rewrite !lookup_insert_ne by done.
Qed.

Lemma _generate_human_readable_on question x W s :
  pipeline_state question x →
  ∃ answer s',
    _generate_human_readable x W s
    = (Returns (<["query_result" := VStr answer]> x), s')
    ∧ names s' = names s ++ ["generate_human_readable"].
Proof.
  intros Hx.
  destruct (pipeline_state_key question x "sql_query" Hx) as [v1 H1];
    [in_list|].
  destruct (pipeline_state_key question x "query_rows" Hx) as [v2 H2];
    [in_list|].
  destruct (pipeline_state_key question x "columns" Hx) as [v3 H3];
    [in_list|].
  destruct (pipeline_state_key question x "sql_error" Hx) as [v4 H4];
    [in_list|].
  destruct (pipeline_state_key question x "question" Hx) as [v5 H5];
    [in_list|].
  destruct (_generate_human_readable_eq x v1 v2 v3 v4 v5 W s H1 H2 H3 H4 H5)
    as (answer & s' & Hf & Hg).
  destruct (generate_human_readable_eq v1
              (VDict {[ "rows" := v2; "columns" := v3;
                        "success" := VBool (negb (truthy v4));
                        "question" := v5 ]}) W s) as (text & Hf').
  assert (answer = VStr text) as -> by congruence.
  exists text, s'. split; [exact Hg|].
  change s' with (Returns (VStr text), s').2. rewrite <- Hf.
  apply decorated_names.
  apply quiet_def2, quiet_generate_human_readable__wrapped__.
Qed.

(** The graph, started on the initial state, never raises: it returns a
    pipeline state whose relevance_result is the classifier's answer, and
    leaves one of three logs. *)
Lemma workflow_returns question W s :
  ∃ final d s',
    _create_workflow (initial_state question) W s = (Returns (VDict final), s')
    ∧ pipeline_state question final
    ∧ final !! "relevance_result" = Some (VDict d)
    ∧ (check_relevance [VStr question] ∅ W s).1 = Returns (VDict d)
    ∧ ∃ l, l ∈ run_logs ∧ names s' = names s ++ l.
Proof.
  destruct (_check_relevance_on question (initial_state question) W s
              (initial_pipeline_state question)) as (d & s1 & Hc & _ & Hn1).
  destruct (truthy (dict_get d "relevant" (VBool false))) eqn:Hrel.
  - assert (pipeline_state question (classified question (VDict d))) as Hx1.
    { unfold classified. pose proof (initial_pipeline_state question).
      pipeline_state_inserts. }
    destruct (_convert_to_sql_on question _ (VDict d) W s1 Hx1 eq_refl)
      as (sql & s2 & Hs & Hshape & _ & Hn2).
    assert (pipeline_state question (synthesized question (VDict d) sql))
      as Hx2.
    { unfold synthesized.
      apply pipeline_state_insert; [|in_list|by intros [?|?]].
      apply pipeline_state_insert; [exact Hx1|in_list|].
      intros _. destruct Hshape as [->|[text ->]]; cbn; [by eexists|].
      destruct (negb (text =? "")%string); by eexists. }
    destruct (_execute_sql_on question _ W s2 Hx2)
      as (x3 & s3 & Hx & Hx3 & Hrr & _ & Hn3).
    destruct (_generate_human_readable_on question x3 W s3 Hx3)
      as (answer & s4 & Hg & Hn4).
    exists (<["query_result" := VStr answer]> x3), d, s4.
    split.
    { rewrite (workflow_relevant _ _ _ _ _ _ _ Hc Hrel Hs).
      unfold bind. by rewrite Hx, Hg. }
    split; [pipeline_state_inserts|].
    split; [by rewrite lookup_insert_ne, Hrr|].
    split; [by rewrite Hc|].
    rewrite Hn4, Hn3, Hn2, Hn1, <- !app_assoc. eexists. split; [|reflexivity].
    destruct (synthesized question (VDict d) sql !! "sql_query")
      as [[| | | |[]| | |]|]; cbn; unfold run_logs; in_list.
  - exists (classified question (VDict d)), d, s1.
    split; [by apply workflow_irrelevant|].
    split.
    { unfold classified. pose proof (initial_pipeline_state question).
      pipeline_state_inserts. }
    split; [reflexivity|]. split; [by rewrite Hc|].
    rewrite Hn1. eexists. split; [|reflexivity]. unfold run_logs. in_list.
Qed.

(** X3.  For the agent that [__init__] builds, the graph never raises and
    always ends in a dictionary: on every question and in every world, [run]
    returns a string under query_result, the classifier's dictionary under
    relevance_result and a string under sql_query.  The payloads of lines
    214-218 and 222-226 (with None under relevance_result and sql_query)
    are never returned. *)
Theorem run_never_returns_the_error_payload
  (question : string) (W : World) (s : Sys) :
  ∃ query_result relevance_result sql_query,
    (run __init__ question W s).1
    = Returns (VDict {[ "query_result" := VStr query_result;
                        "relevance_result" := VDict relevance_result;
                        "sql_query" := VStr sql_query ]})
    ∧ (check_relevance [VStr question] ∅ W s).1
      = Returns (VDict relevance_result).
Proof.
  destruct (workflow_returns question W s)
    as (final & d & s' & Hw & Hfinal & Hrr & Hc & _).
  destruct Hfinal as (_ & _ & _ & [sql Hsql] & [text Hres]).
  exists text, d, sql. split; [|exact Hc].
  rewrite run_eq. cbn [workflow __init__]. rewrite Hw. cbn [fst].
  unfold dict_get. by rewrite Hres, Hrr, Hsql.
Qed.

(** X4.  Every run of the graph ends in a state that has exactly the keys
    of the initial state, with the question as it was given and the
    attempts counter still at 0: no stage adds or drops a key, and nothing
    ever counts an attempt. *)
Theorem run_ends_with_the_initial_keys
  (question : string) (W : World) (s : Sys) :
  ∃ final,
    (_create_workflow (initial_state question) W s).1 = Returns (VDict final)
    ∧ dom final
      = {[ "question"; "relevance_result"; "sql_query"; "query_result";
           "query_rows"; "columns"; "attempts"; "sql_error" ]}
    ∧ final !! "question" = Some (VStr question)
    ∧ final !! "attempts" = Some (VInt 0).
Proof.
  destruct (workflow_returns question W s)
    as (final & d & s' & Hw & Hfinal & _).
  destruct Hfinal as (Hdom & Hq & Ha & _).
  exists final. rewrite Hw. repeat split; done.
Qed.

(** ** What a stage may change *)

Lemma returns_only_ret {A} (Q : A → Prop) a : Q a → returns_only Q (ret a).
Proof. intros HQ W s a' s' [= <- _]. exact HQ. Qed.

Lemma returns_only_raise {A} (Q : A → Prop) e : returns_only Q (raise e).
Proof. intros W s a' s' [=]. Qed.

Lemma returns_only_bind {A B} (Q : B → Prop) (m : M A) (k : A → M B) :
  (∀ a, returns_only Q (k a)) → returns_only Q (bind m k).
Proof.
  intros Hk W s b s'. unfold bind.
  destruct (m W s) as [[a|e] s1]; [apply Hk | intros [=]].
Qed.

Lemma returns_only_try_except {A} (Q : A → Prop) (m : M A) h :
  returns_only Q m → (∀ e, returns_only Q (h e)) →
  returns_only Q (try_except m h).
Proof.
  intros Hm Hh W s a s'. unfold try_except. specialize (Hm W s).
  destruct (m W s) as [[a1|e] s1]; [apply Hm | apply Hh].
Qed.

(** X5.  Whatever state a stage is given, the state it returns has every key
    of the given one, and the same question and attempts: a stage only
    overlays relevance_result, sql_query, sql_error, query_rows, columns
    and query_result. *)
Theorem stages_only_overlay_fields
  (n : node.t) (x : gmap string pyval) (W : World) (s : Sys) :
  match (node_action n x W s).1 with
  | Returns x' =>
      dom x ⊆ dom x'
      ∧ x' !! "question" = x !! "question"
      ∧ x' !! "attempts" = x !! "attempts"
      ∧ ∀ k, k ∉ ["relevance_result"; "sql_query"; "sql_error"; "query_rows";
                  "columns"; "query_result"] → x' !! k = x !! k
  | Raises _ => True
  end.
Proof.
  set (Q := λ x' : gmap string pyval,
         dom x ⊆ dom x'
         ∧ x' !! "question" = x !! "question"
         ∧ x' !! "attempts" = x !! "attempts"
         ∧ ∀ k, k ∉ ["relevance_result"; "sql_query"; "sql_error";
                     "query_rows"; "columns"; "query_result"] →
                x' !! k = x !! k).
  assert (∀ k v x', k ∈ ["relevance_result"; "sql_query"; "sql_error";
                         "query_rows"; "columns"; "query_result"] →
                    Q x' → Q (<[k := v]> x')) as Hins.
  { intros k v x' Hk (Hdom & Hq & Ha & Hother).
    assert (k ≠ "question" ∧ k ≠ "attempts") as [? ?]
      by (cases_of Hk; by split).
    split; [etrans; [exact Hdom | apply dom_insert_subseteq]|].
    split; [by rewrite lookup_insert_ne|].
    split; [by rewrite lookup_insert_ne|].
    intros k' Hk'. rewrite lookup_insert_ne; [by apply Hother|].
    by intros ->. }
  assert (Q x) as Hx by done.
  assert (returns_only Q (node_action n x)) as Hn.
  { destruct n; cbn [node_action];
      unfold _check_relevance, _convert_to_sql, _execute_sql,
        _generate_human_readable.
    all: repeat first
           [ apply returns_only_raise
           | apply returns_only_ret;
             repeat (apply Hins; [solve [in_list]|]); exact Hx
           | apply returns_only_try_except; [|intros ?]
           | apply returns_only_bind; intros ?
           | match goal with
             | |- returns_only _ (if ?b then _ else _) => destruct b
             end ]. }
  destruct (node_action n x W s) as [[x'|e] s'] eqn:Hrun; [|done].
  exact (Hn W s x' s' Hrun).
Qed.

(** X6.  After [tool_monitor.clear()], a run leaves in the log the entries
    of that run and no other: the classifier's alone, or those of the
    classifier, the synthesizer and the formatter, or those of all four
    tools, in this order. *)
Theorem cleared_log_holds_one_run (question : string) (W : World) (s : Sys) :
  names (bind clear (λ _, run __init__ question) W s).2 ∈ run_logs.
Proof.
  set (cleared := {| tool_monitor :=
                       {| invocations := [];
                          _start_time := _start_time (tool_monitor s) |};
                     clock_reads := clock_reads s;
                     trace := trace s |}).
  assert (clear W s = (Returns tt, cleared)) as Hclear by reflexivity.
  unfold bind. rewrite Hclear.
  destruct (workflow_returns question W cleared)
    as (final & d & s' & Hw & _ & _ & _ & l & Hl & Hnames).
  rewrite run_eq. cbn [workflow __init__]. rewrite Hw. cbn [snd].
  by rewrite Hnames.
Qed.

(** X7.  The chat answer.  [format_query_result] applied to what [run]
    returns never raises and gives back the query_result of the run, a
    string, as it is (the test for a markdown table changes nothing). *)
Theorem chat_answer_is_the_query_result
  (question : string) (W : World) (s : Sys) :
  ∃ result answer,
    (run __init__ question W s).1 = Returns (VDict result)
    ∧ result !! "query_result" = Some (VStr answer)
    ∧ format_query_result result = Returns (VStr answer).
Proof.
  destruct (workflow_returns question W s)
    as (final & d & s' & Hw & Hfinal & Hrr & _).
  destruct Hfinal as (_ & _ & _ & [sql Hsql] & [text Hres]).
  exists {[ "query_result" := VStr text;
            "relevance_result" := VDict d;
            "sql_query" := VStr sql ]}, text.
  split.
  { rewrite run_eq. cbn [workflow __init__]. rewrite Hw. cbn [fst].
    unfold dict_get. by rewrite Hres, Hrr, Hsql. }
  split; [apply lookup_insert_eq|].
  unfold format_query_result, dict_get. rewrite lookup_insert_eq. cbn [truthy].
  rewrite bool_decide_eq_false_2 by apply insert_non_empty.
  rewrite bool_decide_eq_true_2 by by eexists.
  cbn [negb orb py_in].
  by destruct (contains text "|"), (contains text "-|-").
Qed.

(** ** A run whose statement executes *)

Lemma _execute_sql_success x sql W s r s1 :
  x !! "sql_query" = Some (VStr sql) →
  sql ≠ "" →
  execute_sql_query [VStr sql] ∅ W s = (Returns (VDict r), s1) →
  truthy (dict_get r "success" VNone) = true →
  _execute_sql x W s
  = (Returns (<["query_result" := VStr "Query executed successfully"]>
                (<["columns" := dict_get r "columns" (VList [])]>
                   (<["query_rows" := dict_get r "rows" (VList [])]>
                      (<["sql_error" := VBool false]> x)))), s1).
Proof.
  intros Hx Hsql Hrun Hsuccess.
  unfold _execute_sql, bind, subscript, ret. rewrite Hx. cbv beta iota.
  assert (truthy (VStr sql) = true) as ->.
  { cbn. apply negb_true_iff. by apply String.eqb_neq. }
  cbn [negb]. unfold try_except. cbv beta iota.
  rewrite Hrun. cbn [py_get]. unfold ret. by rewrite Hsuccess.
Qed.

(** After a statement that executed, the graph finishes with the formatter
    called on the executor's rows and columns. *)
Lemma workflow_after_success question W s rr s1 sql s2 r s3 :
  check_relevance [VStr question] ∅ W s = (Returns (VDict rr), s1) →
  truthy (dict_get rr "relevant" (VBool false)) = true →
  convert_to_sql [VStr question; VDict rr] ∅ W s1 = (Returns (VStr sql), s2) →
  sql ≠ "" →
  execute_sql_query [VStr sql] ∅ W s2 = (Returns (VDict r), s3) →
  truthy (dict_get r "success" VNone) = true →
  ∃ answer s4,
    generate_human_readable
      [VStr sql;
       success_context question (dict_get r "rows" (VList []))
         (dict_get r "columns" (VList []))] ∅ W s3
    = (Returns answer, s4)
    ∧ ∃ final,
        _create_workflow (initial_state question) W s
        = (Returns (VDict final), s4)
        ∧ final !! "sql_error" = Some (VBool false)
        ∧ final !! "query_rows" = Some (dict_get r "rows" (VList []))
        ∧ final !! "columns" = Some (dict_get r "columns" (VList []))
        ∧ final !! "sql_query" = Some (VStr sql)
        ∧ final !! "query_result" = Some answer.
Proof.
  intros Hc Hrel Hs Hsql Hrun Hsuccess.
  set (x2 := synthesized question (VDict rr) (VStr sql)).
  assert (truthy (VStr sql) = true) as Htrue.
  { cbn. apply negb_true_iff. by apply String.eqb_neq. }
  assert (x2 !! "sql_query" = Some (VStr sql)) as Hq.
  { unfold x2. destruct (synthesized_lookup question (VDict rr) (VStr sql))
      as (_ & -> & _). by rewrite Htrue. }
  pose proof (_execute_sql_success x2 sql W s2 r s3 Hq Hsql Hrun Hsuccess)
    as Hx.
  set (x3 := <["query_result" := VStr "Query executed successfully"]>
               (<["columns" := dict_get r "columns" (VList [])]>
                  (<["query_rows" := dict_get r "rows" (VList [])]>
                     (<["sql_error" := VBool false]> x2)))) in Hx.
  destruct (_generate_human_readable_eq x3 (VStr sql)
              (dict_get r "rows" (VList [])) (dict_get r "columns" (VList []))
              (VBool false) (VStr question) W s3)
    as (answer & s4 & Hf & Hg); try reflexivity.
  { unfold x3. by rewrite !lookup_insert_ne. }
  exists answer, s4. split; [exact Hf|].
  exists (<["query_result" := answer]> x3). split.
  - rewrite (workflow_relevant _ _ _ _ _ _ _ Hc Hrel Hs).
    fold x2. unfold bind. by rewrite Hx, Hg.
  - repeat split; try reflexivity.
    unfold x3. by rewrite !lookup_insert_ne.
Qed.



(** X9.  A relevant question whose synthesized statement does not start
    with select and is accepted by the database: the model's statement is
    executed and committed as it came, nothing checks it first; the
    formatter is then called with empty rows and columns and success =
    true, and the final state holds sql_error = false and empty query_rows
    and columns. *)
Theorem synthesized_write_is_committed
  (question : string) (W : World) (s : Sys) (rr : gmap string pyval) (s1 : Sys)
  (sql : string) (s2 : Sys) (result : CursorResult) :
  check_relevance [VStr question] ∅ W s = (Returns (VDict rr), s1) →
  truthy (dict_get rr "relevant" (VBool false)) = true →
  convert_to_sql [VStr question; VDict rr] ∅ W s1 = (Returns (VStr sql), s2) →
  sql ≠ "" →
  SessionLocal_answer W (trace s2) = Returns tt →
  execute_answer W (trace s2 ++ [EvSession]) sql = Returns result →
  first_keyword_is_select sql = false →
  commit_answer W (trace s2 ++ [EvSession; EvExecute sql]) = Returns tt →
  let s3 := (execute_sql_query [VStr sql] ∅ W s2).2 in
  trace s3 = trace s2 ++ [EvSession; EvExecute sql; EvCommit; EvClose]
  ∧ ∃ answer s4,
      generate_human_readable
        [VStr sql; success_context question (VList []) (VList [])] ∅ W s3
      = (Returns answer, s4)
      ∧ ∃ final,
          _create_workflow (initial_state question) W s
          = (Returns (VDict final), s4)
          ∧ final !! "sql_error" = Some (VBool false)
          ∧ final !! "query_rows" = Some (VList [])
          ∧ final !! "columns" = Some (VList [])
          ∧ final !! "sql_query" = Some (VStr sql)
          ∧ final !! "query_result" = Some answer.
Proof.
  intros Hc Hrel Hs Hsql H1 H2 Hsel H3 s3.
  assert (execute_sql_query [VStr sql] ∅ W s2
          = (Returns (VDict {[ "success" := VBool true ]}),
             recorded W "execute_sql_query" ∅
               (VDict {[ "success" := VBool true ]})
               (after [EvSession; EvExecute sql; EvCommit; EvClose]
                  (started W s2)))) as Hrun.
  { unfold execute_sql_query. rewrite decorated1_eq.
    by rewrite (executor_commit sql W (started W s2) result). }
  split; [unfold s3; by rewrite Hrun|].
  unfold s3. rewrite Hrun. cbn [snd].
  exact (workflow_after_success question W s rr s1 sql s2 _ _
           Hc Hrel Hs Hsql Hrun eq_refl).
Qed.

(** X9, witness: the model synthesizes an update. *)
Lemma synthesized_write_is_committed_witness :
  trace (execute_sql_query [VStr update_statement] ∅ update_run_world
           update_run_s2).2
  = trace update_run_s2
    ++ [EvSession; EvExecute update_statement; EvCommit; EvClose]
  ∧ ∃ answer s4,
      generate_human_readable
        [VStr update_statement;
         success_context customers_question (VList []) (VList [])] ∅
        update_run_world
        (execute_sql_query [VStr update_statement] ∅ update_run_world
           update_run_s2).2
      = (Returns answer, s4)
      ∧ ∃ final,
          _create_workflow (initial_state customers_question) update_run_world
            fresh
          = (Returns (VDict final), s4)
          ∧ final !! "sql_error" = Some (VBool false)
          ∧ final !! "query_rows" = Some (VList [])
          ∧ final !! "columns" = Some (VList [])
          ∧ final !! "sql_query" = Some (VStr update_statement)
          ∧ final !! "query_result" = Some answer.
Proof.
  refine (synthesized_write_is_committed customers_question
            update_run_world fresh
            (dict_update (response "No explanation provided")
               {[ "relevant" := VBool true;
                  "explanation" := VStr "Lists the customers table" ]})
            update_run_s1 update_statement update_run_s2 no_rows
            _ _ _ _ _ _ _ _).
  - vm_compute. reflexivity.
  - vm_compute. reflexivity.
  - vm_compute. reflexivity.
  - discriminate.
  - vm_compute. reflexivity.
  - vm_compute. reflexivity.
  - vm_compute. reflexivity.
  - vm_compute. reflexivity.
Defined.

(** ** Sessions *)

(** X10.  [get_db] around any block.  If no session can be made, the block
    does not run and nothing is closed.  Otherwise the block runs once; if
    it ends normally its value is returned and the session is closed; if it
    raises, the session is rolled back, then closed, and the same exception
    is raised again. *)
Theorem get_db_closes_what_it_opens
  {A : Type} (body : M A) (W : World) (s : Sys) :
  match SessionLocal_answer W (trace s) with
  | Raises e => get_db body W s = (Raises e, after [EvSession] s)
  | Returns _ =>
      match body W (after [EvSession] s) with
      | (Returns a, s1) => get_db body W s = (Returns a, after [EvClose] s1)
      | (Raises e, s1) =>
          get_db body W s = (Raises e, after [EvRollback; EvClose] s1)
      end
  end.
Proof.
  unfold get_db, try_finally, try_except, bind, raise, SessionLocal,
    db_rollback, db_close, external, emit.
  destruct (SessionLocal_answer W (trace s)) as [[]|e]; [|done].
  change {| tool_monitor := tool_monitor s; clock_reads := clock_reads s;
            trace := trace s ++ [EvSession] |} with (after [EvSession] s).
  destruct (body W (after [EvSession] s)) as [[a|e] s1]; [done|].
  unfold after; cbn. by rewrite <- app_assoc.
Qed.

(** X11.  The schema provider never raises and always returns a text.  With
    no session, or when the schema query or the reading of its rows fails,
    the text is "Error: Error retrieving database schema: " followed by the
    failure message; in the last two cases the session is rolled back and
    closed.  Otherwise the text is the lines of the description joined by
    newlines, and the session is closed without a rollback. *)
Theorem schema_provider_cases (W : World) (s : Sys) :
  let failed (e : exn) :=
    "Error: " +:+ "Error retrieving database schema: " +:+ exn_str e in
  get_database_schema W s
  = match SessionLocal_answer W (trace s) with
    | Raises e => (Returns (failed e), after [EvSession] s)
    | Returns _ =>
        match execute_answer W (trace s ++ [EvSession]) schema_query with
        | Raises e =>
            (Returns (failed e),
             after [EvSession; EvExecute schema_query; EvRollback; EvClose] s)
        | Returns result =>
            match result_iter result with
            | Raises e =>
                (Returns (failed e),
                 after [EvSession; EvExecute schema_query; EvRollback; EvClose] s)
            | Returns rows =>
                (Returns (join nl (schema_parts None rows)),
                 after [EvSession; EvExecute schema_query; EvClose] s)
            end
        end
    end.
Proof.
  cbv zeta. unfold_db.
  destruct (SessionLocal_answer W (trace s)) as [[]|e]; cbn; [|done].
  destruct (execute_answer W _ schema_query) as [result|e]; cbn.
  - destruct (result_iter result); cbn; unfold after; by rewrite <- !app_assoc.
  - unfold after; by rewrite <- !app_assoc.
Qed.

(** ** The schema description *)

Lemma schema_parts_same_table table rows rest :
  Forall (λ row, TABLE_NAME row = table) rows →
  schema_parts (Some table) (rows ++ rest)
  = (column_line <$> rows) ++ schema_parts (Some table) rest.
Proof.
  induction 1 as [|row rows Hrow _ IH]; [reflexivity|].
  cbn [app fmap list_fmap schema_parts]. rewrite Hrow.
  rewrite bool_decide_eq_true_2 by done. cbn [app].
  rewrite IH. reflexivity.
Qed.

(** X12.  The description goes table by table.  A run of rows of one table
    gives the heading of the table, unless the row before was of the same
    table, then one line per row, in the order of the rows; what follows
    is described as after a row of that table.  (So a table whose rows
    come in two separate runs gets its heading twice.) *)
Theorem schema_description_by_table
  (current_table : option string) (table : string)
  (rows rest : list SchemaRow) :
  rows ≠ [] →
  Forall (λ row, TABLE_NAME row = table) rows →
  schema_parts current_table (rows ++ rest)
  = (if bool_decide (current_table = Some table) then []
     else [table_heading table])
    ++ (column_line <$> rows)
    ++ schema_parts (Some table) rest.
Proof.
  intros Hne Hrows. destruct rows as [|row rows]; [done|].
  apply Forall_cons in Hrows as [Hrow Hrows].
  cbn [app fmap list_fmap schema_parts]. rewrite Hrow.
  rewrite (schema_parts_same_table table rows rest Hrows).
  by destruct (bool_decide (current_table = Some table)).
Qed.

(** X12, witness: two columns of customers, then one of remitTransactions. *)
Lemma schema_description_by_table_witness :
  let id := {| TABLE_NAME := "customers"; COLUMN_NAME := "id";
               DATA_TYPE := "int"; IS_NULLABLE := "NO";
               IS_PRIMARY_KEY := "YES" |} in
  let country := {| TABLE_NAME := "customers"; COLUMN_NAME := "country";
                    DATA_TYPE := "nvarchar"; IS_NULLABLE := "YES";
                    IS_PRIMARY_KEY := "NO" |} in
  let amount := {| TABLE_NAME := "remitTransactions";
                   COLUMN_NAME := "send_amount"; DATA_TYPE := "decimal";
                   IS_NULLABLE := "NO"; IS_PRIMARY_KEY := "NO" |} in
  schema_parts None ([id; country] ++ [amount])
  = (if bool_decide (None = Some "customers") then []
     else [table_heading "customers"])
    ++ (column_line <$> [id; country])
    ++ schema_parts (Some "customers") [amount].
Proof.
  cbv zeta.
  apply (schema_description_by_table None "customers"); [discriminate|].
  by repeat constructor.
Defined.

(** ** The whitelist of tables *)

(** X13.  Adding a table reports whether it was new and leaves it in the
    set; adding it again reports false and changes nothing.  Removing a
    table reports whether it was there and leaves it out of the set;
    removing it again reports false and changes nothing.  Neither touches
    another table. *)
Theorem whitelist_changes_are_idempotent
  (table_name : string) (tables : gset string) :
  let added := add_table_to_schema table_name tables in
  let removed := remove_table_from_schema table_name tables in
  (added.1 = negb (bool_decide (table_name ∈ tables))
   ∧ table_name ∈ added.2
   ∧ add_table_to_schema table_name added.2 = (false, added.2)
   ∧ ∀ other, other ≠ table_name → (other ∈ added.2 ↔ other ∈ tables))
  ∧ (removed.1 = bool_decide (table_name ∈ tables)
     ∧ (table_name ∉ removed.2)
     ∧ remove_table_from_schema table_name removed.2 = (false, removed.2)
     ∧ ∀ other, other ≠ table_name → (other ∈ removed.2 ↔ other ∈ tables)).
Proof.
  cbv zeta. unfold add_table_to_schema, remove_table_from_schema.
  destruct (decide (table_name ∈ tables)) as [Hin|Hout].
  - rewrite (bool_decide_eq_true_2 (table_name ∈ tables)) by done.
    rewrite (bool_decide_eq_false_2 (table_name ∉ tables)) by tauto.
    cbn [fst snd negb]. split.
    + rewrite (bool_decide_eq_true_2 (table_name ∈ tables)) by done.
      repeat split; done.
    + assert (table_name ∉ tables ∖ {[table_name]}) as Hgone.
      { rewrite elem_of_difference, elem_of_singleton. tauto. }
      rewrite (bool_decide_eq_true_2 _ Hgone).
      repeat split; try done.
      * rewrite elem_of_difference. tauto.
      * intros Hother. rewrite elem_of_difference, elem_of_singleton. tauto.
  - rewrite (bool_decide_eq_false_2 (table_name ∈ tables)) by done.
    rewrite (bool_decide_eq_true_2 (table_name ∉ tables)) by done.
    cbn [fst snd negb]. split.
    + assert (table_name ∈ {[table_name]} ∪ tables) as Hthere.
      { rewrite elem_of_union, elem_of_singleton. tauto. }
      rewrite (bool_decide_eq_true_2 _ Hthere).
      repeat split; try done.
      * rewrite elem_of_union, elem_of_singleton. tauto.
      * intros Hother. rewrite elem_of_union, elem_of_singleton. tauto.
    + rewrite (bool_decide_eq_true_2 (table_name ∉ tables)) by done.
      repeat split; done.
Qed.

(** X14.  Removing a table that was just added to a set that did not have it
    gives the set back, and so does adding a table that was just removed
    from a set that had it; both steps report true. *)
Theorem whitelist_add_and_remove_undo_each_other
  (table_name : string) (tables : gset string) :
  if bool_decide (table_name ∈ tables) then
    let removed := remove_table_from_schema table_name tables in
    removed.1 = true
    ∧ add_table_to_schema table_name removed.2 = (true, tables)
  else
    let added := add_table_to_schema table_name tables in
    added.1 = true
    ∧ remove_table_from_schema table_name added.2 = (true, tables).
Proof.
  unfold add_table_to_schema, remove_table_from_schema.
  destruct (decide (table_name ∈ tables)) as [Hin|Hout].
  - rewrite (bool_decide_eq_true_2 (table_name ∈ tables)) by done.
    rewrite (bool_decide_eq_false_2 (table_name ∉ tables)) by tauto.
    cbv zeta. cbn [fst snd]. split; [done|].
    rewrite bool_decide_eq_false_2
      by (rewrite elem_of_difference, elem_of_singleton; tauto).
    f_equal. apply set_eq. intros k.
    rewrite elem_of_union, elem_of_difference, elem_of_singleton.
    destruct (decide (k = table_name)) as [->|]; tauto.
  - rewrite (bool_decide_eq_false_2 (table_name ∈ tables)) by done.
    cbv zeta. cbn [fst snd]. split; [done|].
    rewrite bool_decide_eq_false_2
      by (rewrite elem_of_union, elem_of_singleton; tauto).
    f_equal. apply set_eq. intros k.
    rewrite elem_of_difference, elem_of_union, elem_of_singleton.
    destruct (decide (k = table_name)) as [->|]; tauto.
Qed.

(** ** The tools, whatever the world does *)



(** X16.  The synthesizer never raises and calls the model exactly once,
    after the schema provider has answered: with that answer as schema, the
    question, and its whole second argument as breakdown.  It returns the
    model's text as it is, or None when the model call fails. *)
Theorem synthesizer_asks_the_model_once
  (question context : pyval) (W : World) (s : Sys) :
  ∃ schema s1,
    get_database_schema W (started W s) = (Returns schema, s1)
    ∧ let inputs := synthesis_inputs schema question context in
      let call := convert_to_sql [question; context] ∅ W s in
      trace call.2 = trace s1 ++ [EvInvoke SQL_CONVERSION_PROMPT inputs]
      ∧ call.1
        = Returns match chain_invoke_answer W (trace s1)
                          SQL_CONVERSION_PROMPT inputs with
                  | Returns text => VStr text
                  | Raises _ => VNone
                  end.
Proof.
  destruct (get_database_schema_returns W (started W s))
    as (schema & s1 & Hschema & _).
  exists schema, s1. split; [exact Hschema|]. cbv zeta.
  unfold convert_to_sql. rewrite decorated2_eq.
  unfold convert_to_sql__wrapped__, try_except, bind. rewrite Hschema.
  unfold chain_invoke, external, ret, synthesis_inputs.
  by destruct (chain_invoke_answer W (trace s1) SQL_CONVERSION_PROMPT _).
Qed.

(** X17.  A schema that cannot be read does not stop the synthesis.  When
    the schema query is refused, the session is rolled back and closed, and
    the model is still asked for a statement, with the text "Error: Error
    retrieving database schema: " and the failure message in the place of
    the schema. *)
Theorem synthesis_goes_on_without_a_schema
  (question context : pyval) (W : World) (s : Sys) (e : exn) :
  SessionLocal_answer W (trace s) = Returns tt →
  execute_answer W (trace s ++ [EvSession]) schema_query = Raises e →
  let inputs :=
    synthesis_inputs
      ("Error: " +:+ "Error retrieving database schema: " +:+ exn_str e)
      question context in
  let before :=
    trace s ++ [EvSession; EvExecute schema_query; EvRollback; EvClose] in
  let call := convert_to_sql [question; context] ∅ W s in
  trace call.2 = before ++ [EvInvoke SQL_CONVERSION_PROMPT inputs]
  ∧ call.1
    = Returns match chain_invoke_answer W before SQL_CONVERSION_PROMPT inputs with
              | Returns text => VStr text
              | Raises _ => VNone
              end.
Proof.
  intros H1 H2. cbv zeta.
  unfold convert_to_sql. rewrite decorated2_eq.
  unfold convert_to_sql__wrapped__, try_except, bind.
  rewrite (schema_provider_rolls_back W (started W s) e H1 H2).
  unfold chain_invoke, external, ret, synthesis_inputs. cbn [trace after started].
  by destruct (chain_invoke_answer W _ SQL_CONVERSION_PROMPT _).
Qed.

(** X17, witness: the schema query is refused and the model is down. *)
Lemma synthesis_goes_on_without_a_schema_witness :
  trace (convert_to_sql [VStr customers_question; VNone] ∅
           schema_error_world fresh).2
  = ([] ++ [EvSession; EvExecute schema_query; EvRollback; EvClose])
    ++ [EvInvoke SQL_CONVERSION_PROMPT
          (synthesis_inputs
             ("Error: " +:+ "Error retrieving database schema: "
              +:+ exn_str syntax_error)
             (VStr customers_question) VNone)]
  ∧ (convert_to_sql [VStr customers_question; VNone] ∅
       schema_error_world fresh).1
    = Returns VNone.
Proof.
  exact (synthesis_goes_on_without_a_schema (VStr customers_question) VNone
           schema_error_world fresh syntax_error eq_refl eq_refl).
Defined.

(** X18.  The formatter never raises and calls the model exactly once, with
    its two arguments as sql and result.  It returns the model's text as it
    is or, when the model call fails, the text "Error processing results: "
    followed by the failure message. *)
Theorem formatter_always_answers (sql result : pyval) (W : World) (s : Sys) :
  let call := generate_human_readable [sql; result] ∅ W s in
  trace call.2 = trace s ++ [formatted sql result]
  ∧ call.1
    = Returns
        (VStr match chain_invoke_answer W (trace s) HUMAN_READABLE_PROMPT
                      {[ "sql" := sql; "result" := result ]} with
              | Returns text => text
              | Raises e => "Error processing results: " +:+ exn_str e
              end).
Proof.
  cbv zeta. unfold generate_human_readable. rewrite decorated2_eq.
  unfold generate_human_readable__wrapped__, try_except, bind, chain_invoke,
    external, ret, formatted; cbn.
  by destruct (chain_invoke_answer W _ _ _).
Qed.

(** ** The constructor of the agent *)

(** X19.  [SQLAgent.__init__] tries the connection with two statements and
    reads the count that the second one yields.  If the session, either
    statement or the reading fails, it raises a RuntimeError whose message
    is "Database connection failed: " followed by the failure message, the
    session, if there was one, having been rolled back and closed.
    Otherwise the session is closed and the agent holds the compiled graph.
    The log is not touched in any case. *)
Theorem constructor_tries_the_connection (W : World) (s : Sys) :
  let failed (e : exn) : outcome SQLAgent :=
    Raises (Exn (OtherException "RuntimeError")
              ("Database connection failed: " +:+ exn_str e)) in
  SQLAgent__init__ W s
  = match SessionLocal_answer W (trace s) with
    | Raises e => (failed e, after [EvSession] s)
    | Returns _ =>
        match execute_answer W (trace s ++ [EvSession]) "SELECT 1" with
        | Raises e =>
            (failed e,
             after [EvSession; EvExecute "SELECT 1"; EvRollback; EvClose] s)
        | Returns _ =>
            match execute_answer W
                    (trace s ++ [EvSession; EvExecute "SELECT 1"])
                    tables_count_query with
            | Raises e =>
                (failed e,
                 after [EvSession; EvExecute "SELECT 1";
                        EvExecute tables_count_query; EvRollback; EvClose] s)
            | Returns result =>
                match result_fetchall result with
                | Raises e =>
                    (failed e,
                     after [EvSession; EvExecute "SELECT 1";
                            EvExecute tables_count_query; EvFetchall;
                            EvRollback; EvClose] s)
                | Returns _ =>
                    (Returns __init__,
                     after [EvSession; EvExecute "SELECT 1";
                            EvExecute tables_count_query; EvFetchall;
                            EvClose] s)
                end
            end
        end
    end.
Proof.
  cbv zeta. unfold SQLAgent__init__, scalar. unfold_db.
  destruct (SessionLocal_answer W (trace s)) as [[]|e]; cbn; [|done].
  destruct (execute_answer W (trace s ++ [EvSession]) "SELECT 1")
    as [r1|e]; cbn; [|unfold after; by rewrite <- ?app_assoc].
  rewrite <- app_assoc. cbn [app].
  destruct (execute_answer W _ tables_count_query) as [result|e]; cbn;
    [|unfold after; by rewrite <- ?app_assoc].
  destruct (result_fetchall result); cbn;
    unfold after; by rewrite <- ?app_assoc.
Qed.



(** ** The connection string *)

Lemma isspace_lower c : isspace c = true → lower_char c = c.
Proof. destruct c as [[] [] [] [] [] [] [] []]; vm_compute; congruence. Qed.

Lemma isspace_not_hash c : isspace c = true → Ascii.eqb c "#" = false.
Proof. destruct c as [[] [] [] [] [] [] [] []]; vm_compute; congruence. Qed.

Lemma append_empty_r s : s +:+ "" = s.
Proof.
  induction s as [|c s IH]; [done|].
  change (String c s +:+ "") with (String c (s +:+ "")). by rewrite IH.
Qed.

Lemma append_assoc a b c : (a +:+ b) +:+ c = a +:+ b +:+ c.
Proof.
  induction a as [|x a IH]; [done|].
  change ((String x a +:+ b) +:+ c) with (String x ((a +:+ b) +:+ c)).
  by rewrite IH.
Qed.

Lemma lower_app a b : lower (a +:+ b) = lower a +:+ lower b.
Proof.
  induction a as [|c a IH]; [done|].
  change (String c a +:+ b) with (String c (a +:+ b)).
  cbn [lower]. by rewrite IH.
Qed.

Lemma lower_blank ws : blank ws = true → lower ws = ws.
Proof.
  induction ws as [|c ws IH]; [done|]. cbn [blank lower].
  intros [Hc Hws]%andb_true_iff. by rewrite isspace_lower, IH.
Qed.

Lemma lstrip_blank_app ws s : blank ws = true → lstrip (ws +:+ s) = lstrip s.
Proof.
  induction ws as [|c ws IH]; [done|].
  change (String c ws +:+ s) with (String c (ws +:+ s)). cbn [blank lstrip].
  intros [Hc Hws]%andb_true_iff. rewrite Hc. by apply IH.
Qed.

Lemma rstrip_blank ws : blank ws = true → rstrip ws = "".
Proof.
  induction ws as [|c ws IH]; [done|]. cbn [blank rstrip].
  intros [Hc Hws]%andb_true_iff. by rewrite IH, Hc.
Qed.

Lemma rstrip_app_blank a ws : blank ws = true → rstrip (a +:+ ws) = rstrip a.
Proof.
  intros Hws. induction a as [|c a IH]; [by apply rstrip_blank|].
  change (String c a +:+ ws) with (String c (a +:+ ws)).
  cbn [rstrip]. by rewrite IH.
Qed.

Lemma rstrip_app_nonempty a b :
  rstrip b ≠ "" → rstrip (a +:+ b) = a +:+ rstrip b.
Proof.
  intros Hb. induction a as [|c a IH]; [done|].
  change (String c a +:+ b) with (String c (a +:+ b)).
  change (String c a +:+ rstrip b) with (String c (a +:+ rstrip b)).
  cbn [rstrip]. rewrite IH.
  destruct (a +:+ rstrip b) eqn:Hab; [|done].
  destruct a; [|done]. by destruct Hb.
Qed.

Lemma before_hash_blank ws : blank ws = true → before_hash ws = ws.
Proof.
  induction ws as [|c ws IH]; [done|]. cbn [blank before_hash].
  intros [Hc Hws]%andb_true_iff. by rewrite isspace_not_hash, IH.
Qed.

Lemma before_hash_app a b :
  before_hash a = a → before_hash (a +:+ String "#" b) = a.
Proof.
  induction a as [|c a IH]; [done|].
  change (String c a +:+ String "#" b) with (String c (a +:+ String "#" b)).
  cbn [before_hash].
  destruct (Ascii.eqb c "#"); [done|]. intros [= Ha]. by rewrite IH.
Qed.

Lemma before_hash_clean_app a b :
  before_hash a = a → before_hash b = b → before_hash (a +:+ b) = a +:+ b.
Proof.
  intros Ha Hb. induction a as [|c a IH]; [done|].
  change (String c a +:+ b) with (String c (a +:+ b)).
  cbn [before_hash] in *.
  destruct (Ascii.eqb c "#"); [done|]. injection Ha as Ha. by rewrite IH.
Qed.

Lemma spaces_to_plus_has_no_space s : contains (spaces_to_plus s) " " = false.
Proof.
  induction s as [|c s IH]; [done|]. cbn [spaces_to_plus contains].
  rewrite IH, orb_false_r.
  destruct c as [[] [] [] [] [] [] [] []]; reflexivity.
Qed.

(** X20.  The database type is read loosely: in any letter case, with white
    space around it, and with anything after a [#] ignored, the type mssql
    is accepted.  The connection string is then the URL built from the
    user, password, server, port, database name and driver as they are,
    except that every space of the driver name becomes a plus sign. *)
Theorem connection_string_reads_the_type_loosely
  (self : Settings) (lead kind trail rest : string) :
  blank lead = true →
  blank trail = true →
  lower kind = "mssql" →
  rest = "" ∨ (∃ comment, rest = String "#" comment) →
  DB_TYPE self = lead +:+ kind +:+ trail +:+ rest →
  connection_string self = Returns (mssql_url self)
  ∧ contains (spaces_to_plus (DB_DRIVER self)) " " = false.
Proof.
  intros Hlead Htrail Hkind Hrest Htype.
  split; [|apply spaces_to_plus_has_no_space].
  assert (strip (before_hash (strip (lower (DB_TYPE self)))) = "mssql") as Hn.
  { rewrite Htype, !lower_app, Hkind, (lower_blank lead Hlead),
      (lower_blank trail Htrail).
    unfold strip at 2. rewrite (lstrip_blank_app lead _ Hlead).
    change (lstrip ("mssql" +:+ trail +:+ lower rest))
      with ("mssql" +:+ trail +:+ lower rest).
    assert (before_hash ("mssql" +:+ trail) = "mssql" +:+ trail) as Hclean.
    { apply before_hash_clean_app; [done|by apply before_hash_blank]. }
    assert (strip ("mssql" +:+ trail) = "mssql") as Hstrip.
    { unfold strip.
      change (lstrip ("mssql" +:+ trail)) with ("mssql" +:+ trail).
      by rewrite (rstrip_app_blank "mssql" trail Htrail). }
    destruct Hrest as [->|[comment ->]].
    - change (lower "") with "".
      rewrite (append_empty_r trail).
      rewrite (rstrip_app_blank "mssql" trail Htrail).
      reflexivity.
    - change (lower (String "#" comment)) with (String "#" (lower comment)).
      rewrite <- (append_assoc "mssql" trail).
      rewrite rstrip_app_nonempty.
      + assert (rstrip (String "#" (lower comment))
                = String "#" (rstrip (lower comment))) as ->.
        { cbn [rstrip]. by destruct (rstrip (lower comment)). }
        by rewrite (before_hash_app _ _ Hclean), Hstrip.
      + cbn [rstrip]. by destruct (rstrip (lower comment)). }
  unfold connection_string. rewrite Hn. reflexivity.
Qed.

(** X20, witness: a type written with capitals, blanks and a comment. *)
Lemma connection_string_reads_the_type_loosely_witness :
  connection_string settings_example = Returns (mssql_url settings_example)
  ∧ contains (spaces_to_plus (DB_DRIVER settings_example)) " " = false.
Proof.
  apply (connection_string_reads_the_type_loosely settings_example
           "  " "MsSQL" "   " "# production");
    first [reflexivity | right; by eexists].
Defined.
